(** * photobot: authorization, media download and error reporting

    A shallow embedding of [src/main.py].  The handlers are coroutines
    that talk to the Telegram platform; they are modelled in a small
    monad that threads the history of issued platform calls and
    propagates Python exceptions.  Text is modelled as [string]
    (a sequence of bytes, UTF-8 for non-ASCII text); every character
    the program inspects (the path separator and the HTML specials)
    is ASCII, so byte-wise processing agrees with Python's.  The
    built-in [int], whose reading of a string depends on the
    interpreter, is a parameter of the program: everything proved of
    the handlers holds whatever strings [int] accepts. *)

From Stdlib Require Import ZArith String Ascii List Bool Lia.
From Stdlib Require Import DecimalString DecimalPos.
Import ListNotations.
Local Open Scope string_scope.
Local Open Scope Z_scope.

(** ** Python library functions used by the program *)

Module Py.

(** The newline character of the source's ["\n"] escapes. *)
Definition nl : string := String "010"%char EmptyString.

(** The double quote and the apostrophe, as characters. *)
Definition dquote : ascii := "034"%char.
Definition squote : ascii := "039"%char.

(** [s.replace(old, new)] for a one-character [old]. *)
Fixpoint replace (old : ascii) (new : string) (s : string) : string :=
  match s with
  | EmptyString => EmptyString
  | String c r =>
      if Ascii.eqb c old then new ++ replace old new r
      else String c (replace old new r)
  end.

(** [html.escape(s)] with the default [quote=True]: the ampersand is
    replaced first, then the angle brackets, then both quotes. *)
Definition html_escape (s : string) : string :=
  let s := replace "&" "&amp;" s in
  let s := replace "<" "&lt;" s in
  let s := replace ">" "&gt;" s in
  let s := replace dquote "&quot;" s in
  let s := replace squote "&#x27;" s in
  s.

(** [s.split(sep)] for a one-character separator: never empty. *)
Fixpoint split (sep : ascii) (s : string) : list string :=
  match s with
  | EmptyString => [EmptyString]
  | String c r =>
      if Ascii.eqb c sep then EmptyString :: split sep r
      else match split sep r with
           | [] => [String c EmptyString]
           | h :: t => String c h :: t
           end
  end.

(** [sep.join(l)]. *)
Definition join (sep : string) (l : list string) : string :=
  String.concat sep l.

(** [str(n)] for an integer. *)
Definition str (n : Z) : string := NilZero.string_of_int (Z.to_int n).

(** The blanks of an ASCII string that [int] drops from both its ends:
    tab, line feed, vertical tab, form feed, carriage return, space. *)
Definition is_space (c : ascii) : bool :=
  let n := nat_of_ascii c in
  ((9 <=? n) && (n <=? 13) || (n =? 32))%nat.

Definition is_digit (c : ascii) : bool :=
  let n := nat_of_ascii c in ((48 <=? n) && (n <=? 57))%nat.

Definition digit_val (c : ascii) : Z := Z.of_nat (nat_of_ascii c) - 48.

Fixpoint lstrip (s : string) : string :=
  match s with
  | EmptyString => EmptyString
  | String c r => if is_space c then lstrip r else s
  end.

Fixpoint rstrip (s : string) : string :=
  match s with
  | EmptyString => EmptyString
  | String c r =>
      match rstrip r with
      | EmptyString => if is_space c then EmptyString else String c EmptyString
      | r' => String c r'
      end
  end.

(** Digits of a base-10 literal: single underscores may separate
    digits, [prev] tells whether the previous character was a digit. *)
Fixpoint digits (acc : Z) (prev : bool) (s : string) : option Z :=
  match s with
  | EmptyString => if prev then Some acc else None
  | String c r =>
      if is_digit c then digits (acc * 10 + digit_val c) true r
      else if Ascii.eqb c "_" then
             if prev then digits acc false r else None
      else None
  end.

(** The ASCII reading of integers: surrounding blanks are dropped, a
    sign may lead, the rest must be a base-10 literal; [None] where
    there is no such reading.  It stands in for [int] only where the
    program is run on sample inputs, on which the two agree; Python's
    [int] reads more (digits and blanks of other scripts) and, on
    interpreters that bound the number of digits, less. *)
Definition int_of_ascii (s : string) : option Z :=
  match rstrip (lstrip s) with
  | String "-" r => option_map Z.opp (digits 0 false r)
  | String "+" r => digits 0 false r
  | r => digits 0 false r
  end.

End Py.

(** ** Exceptions and results *)

Inductive exn : Type :=
| Forbidden (msg : string)        (* telegram.error.Forbidden *)
| AttributeError (attr : string)  (* attribute looked up on an object lacking it *)
| IndexError
| TypeError
| ValueError
| TelegramError (msg : string).   (* any failure raised by the platform *)

Inductive result (A : Type) : Type :=
| Ok (a : A)
| Err (e : exn).
Arguments Ok {A} a.
Arguments Err {A} e.

(** The interpreter's built-in [int] on a string: the integer it
    reads, or [None] where it raises [ValueError].  Which strings it
    accepts is the interpreter's matter; the program is verified for
    every such function. *)
Class Python : Type :=
  { int_of_str : string -> option Z }.

(** The ASCII reading in the place of the interpreter, for the sample
    inputs and for identities written out with [str]. *)
Definition ascii_python : Python :=
  {| int_of_str := Py.int_of_ascii |}.

(** [int(x)] where [x] is the value of [os.getenv]: [None] raises
    [TypeError], a string that [int] does not accept [ValueError]. *)
Definition int {py : Python} (x : option string) : result Z :=
  match x with
  | None => Err TypeError
  | Some s => match int_of_str s with
              | Some n => Ok n
              | None => Err ValueError
              end
  end.

(** [o.name] where [o] may be [None]. *)
Definition getattr {A : Type} (o : option A) (name : string) : result A :=
  match o with
  | Some a => Ok a
  | None => Err (AttributeError name)
  end.

(** [l[-1]]. *)
Definition index_last {A : Type} (l : list A) : result A :=
  match rev l with
  | x :: _ => Ok x
  | [] => Err IndexError
  end.

(** ** Data model: the parts of the Telegram objects the program reads *)

Module Chat.
Record t : Type := { id : Z }.
End Chat.

Module PhotoSize.
Record t : Type := { file_id : string; width : Z; height : Z }.
End PhotoSize.

Module Video.
Record t : Type := { file_id : string }.
End Video.

Module File.
Record t : Type := { file_id : string; file_path : option string }.
End File.

Module Message.
Record t : Type :=
  { message_id : Z;
    photo : list PhotoSize.t;
    video : option Video.t }.
End Message.

Module Update.
Record t : Type :=
  { effective_chat : option Chat.t;
    effective_message : option Message.t;
    message : option Message.t }.
End Update.

(** A caught exception together with the frames of its traceback. *)
Record Failure : Type := { exc : exn; frames : list string }.

Inductive ParseMode : Type := HTML | MARKDOWN | MARKDOWN_V2.

(** Process configuration, read once when the module is loaded. *)
Record Config : Type :=
  { DEVELOPER_CHAT_ID : option string;
    BOT_TOKEN : option string }.

Definition load_config (getenv : string -> option string) : Config :=
  {| DEVELOPER_CHAT_ID := getenv "DEVELOPER_CHAT_ID";
     BOT_TOKEN := getenv "BOT_TOKEN" |}.

(** ** Effects *)

(** What the program asks of the outside world, in the order issued. *)
Inductive action : Type :=
| LogError (msg : string) (exc_info : Failure)
| GetFile (file_id : string)
| DownloadToDrive (file : File.t) (custom_path : string)
| ReplyHtml (to : Message.t) (text : string)
| SendMessage (chat_id : option string) (text : string) (parse_mode : ParseMode).

Definition trace : Type := list action.

(** The platform's answers; each may depend on everything issued so far. *)
Record Platform : Type :=
  { on_get_file : trace -> string -> result File.t;
    on_download : trace -> File.t -> string -> result unit;
    on_reply : trace -> Message.t -> string -> result unit;
    on_send : trace -> option string -> string -> ParseMode -> result unit }.

Definition M (A : Type) : Type := trace -> trace * result A.

Definition ret {A : Type} (a : A) : M A := fun t => (t, Ok a).

Definition raise {A : Type} (e : exn) : M A := fun t => (t, Err e).

Definition bind {A B : Type} (m : M A) (k : A -> M B) : M B :=
  fun t => match m t with
           | (t', Ok a) => k a t'
           | (t', Err e) => (t', Err e)
           end.

Definition lift {A : Type} (r : result A) : M A := fun t => (t, r).

(** Issue [a]; the outcome is the platform's answer to it. *)
Definition perform {A : Type} (a : action) (answer : trace -> result A) : M A :=
  fun t => ((t ++ [a])%list, answer t).

Declare Scope py_scope.
Delimit Scope py_scope with py.
Notation "x <- m ;; k" := (bind m (fun x => k))
  (at level 61, m at next level, right associativity) : py_scope.
Notation "m ;; k" := (bind m (fun _ => k))
  (at level 61, right associativity) : py_scope.

(** JSON values, as produced by [Update.to_dict]. *)
#[warnings="-register-all"]
Inductive json : Type :=
| JNull
| JBool (b : bool)
| JNum (n : Z)
| JStr (s : string)
| JList (l : list json)
| JDict (kv : list (string * json)).

(** The update object handed to the error handler need not be an
    [Update]; of any other object only its [str] is used. *)
Inductive object : Type :=
| an_Update (u : Update.t)
| other (str : string).

(** The callback context: the caught failure and the dispatcher's
    per-chat and per-user data. *)
Record Context (data : Type) : Type :=
  { error : Failure;
    chat_data : data;
    user_data : data }.
Arguments error {data} c.
Arguments chat_data {data} c.
Arguments user_data {data} c.

(** Library functions whose output the program embeds without looking
    inside: [Update.to_dict], [json.dumps(_, indent=2, ensure_ascii=False)],
    [str] of the dispatcher's data and [traceback.format_exception]. *)
Record Runtime (data : Type) : Type :=
  { to_dict : Update.t -> json;
    json_dumps : json -> string;
    str_data : data -> string;
    format_exception : Failure -> list string }.
Arguments to_dict {data} r.
Arguments json_dumps {data} r.
Arguments str_data {data} r.
Arguments format_exception {data} r.

(** ** The program *)

Section Bot.

Local Open Scope py_scope.

Context {py : Python}.
Variable data : Type.
Variable rt : Runtime data.
Variable env : Config.
Variable bot : Platform.

(** The awaited platform calls. *)
Definition get_file (file_id : string) : M File.t :=
  perform (GetFile file_id) (fun t => on_get_file bot t file_id).

Definition download_to_drive (file : File.t) (custom_path : string) : M unit :=
  perform (DownloadToDrive file custom_path)
          (fun t => on_download bot t file custom_path).

Definition reply_html (to : Message.t) (text : string) : M unit :=
  perform (ReplyHtml to text) (fun t => on_reply bot t to text).

Definition send_message (chat_id : option string) (text : string)
           (parse_mode : ParseMode) : M unit :=
  perform (SendMessage chat_id text parse_mode)
          (fun t => on_send bot t chat_id text parse_mode).

(** [logger.error(msg, exc_info=e)]: logging never raises. *)
Definition logger_error (msg : string) (e : Failure) : M unit :=
  perform (LogError msg e) (fun _ => Ok tt).

(** The text of the report built by [error_handler]. *)
Definition report_text (update : object) (context : Context data) : string :=
  let tb_list := format_exception rt (error context) in
  let tb_string := Py.join "" tb_list in
  let update_str :=
    match update with
    | an_Update u => to_dict rt u
    | other s => JStr s
    end in
  ("An exception was raised while handling an update" ++ Py.nl
   ++ "<pre>update = " ++ Py.html_escape (json_dumps rt update_str)
   ++ "</pre>" ++ Py.nl ++ Py.nl
   ++ "<pre>context.chat_data = "
   ++ Py.html_escape (str_data rt (chat_data context))
   ++ "</pre>" ++ Py.nl ++ Py.nl
   ++ "<pre>context.user_data = "
   ++ Py.html_escape (str_data rt (user_data context))
   ++ "</pre>" ++ Py.nl ++ Py.nl
   ++ "<pre>" ++ Py.html_escape tb_string ++ "</pre>")%string.

Definition error_handler (update : object) (context : Context data) : M unit :=
  logger_error "Exception while handling an update:" (error context) ;;
  let message := report_text update context in
  send_message (DEVELOPER_CHAT_ID env) message HTML.

(** [context.bot.wrong_method_name()]: the bot has no such attribute,
    so the lookup raises before anything is called. *)
Definition bad_command (update : Update.t) : M unit :=
  raise (AttributeError "wrong_method_name").

Definition check_user (update : Update.t) : M unit :=
  chat <- lift (getattr (Update.effective_chat update) "id") ;;
  developer <- lift (int (DEVELOPER_CHAT_ID env)) ;;
  if negb (Chat.id chat =? developer)
  then raise (Forbidden "Unauthorized user")
  else ret tt.

(** The text sent by [start] and by [video]. *)
Definition usage_text (chat_id : Z) : string :=
  ("Use /bad_command to cause an error." ++ Py.nl
   ++ "Your chat id is <code>" ++ Py.str chat_id ++ "</code>.")%string.

Definition start (update : Update.t) : M unit :=
  check_user update ;;
  msg <- lift (getattr (Update.effective_message update) "reply_html") ;;
  chat <- lift (getattr (Update.effective_chat update) "id") ;;
  reply_html msg (usage_text (Chat.id chat)).

Definition download_file (file_id : string) : M unit :=
  new_file <- get_file file_id ;;
  file_path <- lift (getattr (File.file_path new_file) "split") ;;
  filename <- lift (index_last (Py.split "/" file_path)) ;;
  download_to_drive new_file ("/files/" ++ filename)%string.

Definition image (update : Update.t) : M unit :=
  check_user update ;;
  message <- lift (getattr (Update.message update) "photo") ;;
  size <- lift (index_last (Message.photo message)) ;;
  let file_id := PhotoSize.file_id size in
  download_file file_id ;;
  msg <- lift (getattr (Update.effective_message update) "reply_html") ;;
  reply_html msg "Downloaded image".

Definition video (update : Update.t) : M unit :=
  check_user update ;;
  message <- lift (getattr (Update.message update) "video") ;;
  payload <- lift (getattr (Message.video message) "file_id") ;;
  let file_id := Video.file_id payload in
  download_file file_id ;;
  msg <- lift (getattr (Update.effective_message update) "reply_html") ;;
  chat <- lift (getattr (Update.effective_chat update) "id") ;;
  reply_html msg (usage_text (Chat.id chat)) ;;
  msg <- lift (getattr (Update.effective_message update) "reply_html") ;;
  reply_html msg "Downloaded video".

End Bot.

Arguments report_text {data} rt update context.
Arguments error_handler {data} rt env bot update context.

(** ** Vocabulary of the statements *)

(** [needle] occurs in [hay] as a contiguous substring. *)
Definition contains (needle hay : string) : Prop :=
  exists p q, hay = (p ++ needle ++ q)%string.

(** [c] occurs in [s]. *)
Fixpoint has_char (c : ascii) (s : string) : bool :=
  match s with
  | EmptyString => false
  | String d r => Ascii.eqb d c || has_char c r
  end.

(** Some ["<"] of [s] is directly followed by ["s"], as in an opening
    [script] tag. *)
Fixpoint opens_s_tag (s : string) : bool :=
  match s with
  | EmptyString => false
  | String c r =>
      (Ascii.eqb c "<" && match r with
                          | String d _ => Ascii.eqb d "s"
                          | EmptyString => false
                          end)
      || opens_s_tag r
  end.

(** The file ids handed to the platform's [get_file], in order. *)
Fixpoint requested (t : trace) : list string :=
  match t with
  | [] => []
  | GetFile file_id :: r => file_id :: requested r
  | _ :: r => requested r
  end.

(** The chat messages sent, replies included: recipient (the configured
    chat, or the message replied to), text and parse mode. *)
Fixpoint chat_messages (t : trace)
  : list ((option string + Message.t) * string * ParseMode) :=
  match t with
  | [] => []
  | SendMessage chat_id text mode :: r => (inl chat_id, text, mode) :: chat_messages r
  | ReplyHtml to text :: r => (inr to, text, HTML) :: chat_messages r
  | _ :: r => chat_messages r
  end.

(** The four components the error report embeds. *)
Definition components {data : Type} (rt : Runtime data)
           (update : object) (context : Context data) : list string :=
  [ json_dumps rt (match update with
                   | an_Update u => to_dict rt u
                   | other s => JStr s
                   end);
    str_data rt (chat_data context);
    str_data rt (user_data context);
    Py.join "" (format_exception rt (error context)) ].

(** A section of the report: text between [<pre>] and [</pre>]. *)
Definition pre_block (body : string) : string :=
  ("<pre>" ++ body ++ "</pre>")%string.

(** What one run of [error_handler] issues for a given report text. *)
Definition report_actions {data : Type} (env : Config)
           (context : Context data) (text : string) : trace :=
  [ LogError "Exception while handling an update:" (error context);
    SendMessage (DEVELOPER_CHAT_ID env) text HTML ].

(** Occurrences of [c] in [s]. *)
Fixpoint count_char (c : ascii) (s : string) : nat :=
  match s with
  | EmptyString => O
  | String d r => ((if Ascii.eqb d c then 1 else 0) + count_char c r)%nat
  end.

(** [s] holds none of the five characters [html.escape] rewrites. *)
Definition plain (s : string) : bool :=
  negb (has_char "&" s || has_char "<" s || has_char ">" s
        || has_char Py.dquote s || has_char Py.squote s).

(** What [html.escape] makes of a single character. *)
Definition escape_char (c : ascii) : string :=
  if Ascii.eqb c "&" then "&amp;"
  else if Ascii.eqb c "<" then "&lt;"
  else if Ascii.eqb c ">" then "&gt;"
  else if Ascii.eqb c Py.dquote then "&quot;"
  else if Ascii.eqb c Py.squote then "&#x27;"
  else String c EmptyString.

(** ** Registration *)

(** What a registered callback is triggered by: [CommandHandler(name, _)]
    or [MessageHandler] with [filters.PHOTO] or [filters.VIDEO]. *)
Inductive trigger : Type :=
| Command (name : string)
| PHOTO
| VIDEO.

(** The application as [main] sets it up before polling: the token it
    is built with, the update callbacks in the order of their
    [add_handler] calls, and the error callbacks. *)
Record Application (data : Type) : Type :=
  { token : option string;
    handlers : list (trigger * (Update.t -> M unit));
    error_handlers : list (object -> Context data -> M unit) }.
Arguments token {data} a.
Arguments handlers {data} a.
Arguments error_handlers {data} a.

Definition main_application {py : Python} {data : Type} (rt : Runtime data)
           (env : Config) (bot : Platform) : Application data :=
  {| token := BOT_TOKEN env;
     handlers := [ (Command "start", start env bot);
                   (Command "bad_command", bad_command);
                   (PHOTO, image env bot);
                   (VIDEO, video env bot) ];
     error_handlers := [ error_handler rt env bot ] |}.

(** The framework's side of an error: every error callback runs in
    turn, and what one of them raises is not passed on. *)
Fixpoint process_error {data : Type}
         (callbacks : list (object -> Context data -> M unit))
         (update : object) (context : Context data) : M unit :=
  match callbacks with
  | [] => ret tt
  | callback :: rest =>
      fun t => process_error rest update context (fst (callback update context t))
  end.

(** The context the framework builds for a raised exception [e];
    [traceback] stands for the frames Python attaches to it. *)
Definition failure_context {data : Type} (traceback : exn -> list string)
           (e : exn) (chat_data user_data : data) : Context data :=
  {| error := {| exc := e; frames := traceback e |};
     chat_data := chat_data;
     user_data := user_data |}.

(** The framework's handling of one update by the callback it was
    routed to: a failure the callback raises is handed, with the update
    and the dispatcher's data for it, to the error callbacks. *)
Definition process_update {data : Type} (app : Application data)
           (traceback : exn -> list string)
           (callback : Update.t -> M unit) (update : Update.t)
           (chat_data user_data : data) : M unit :=
  fun t =>
    match callback update t with
    | (t', Ok _) => (t', Ok tt)
    | (t', Err e) =>
        process_error (error_handlers app) (an_Update update)
                      (failure_context traceback e chat_data user_data) t'
    end.

(** ** Sample inputs *)

(** The samples are run with the ASCII reading of [int]. *)

Module Fixture.

(** The developer's chat is 42. *)
Definition env : Config :=
  {| DEVELOPER_CHAT_ID := Some "42"; BOT_TOKEN := Some "123:abc" |}.

(** An environment where the identity is spelled out in words. *)
Definition getenv_garbled (name : string) : option string :=
  if String.eqb name "DEVELOPER_CHAT_ID" then Some "forty-two" else None.

Definition remote (file_id : string) : File.t :=
  {| File.file_id := file_id;
     File.file_path := Some "abc/def/image123.jpg" |}.

(** A platform on which every call succeeds. *)
Definition quiet : Platform :=
  {| on_get_file := fun _ file_id => Ok (remote file_id);
     on_download := fun _ _ _ => Ok tt;
     on_reply := fun _ _ _ => Ok tt;
     on_send := fun _ _ _ _ => Ok tt |}.

Definition v1 : PhotoSize.t :=
  {| PhotoSize.file_id := "small"; PhotoSize.width := 90; PhotoSize.height := 60 |}.
Definition v2 : PhotoSize.t :=
  {| PhotoSize.file_id := "medium"; PhotoSize.width := 320; PhotoSize.height := 213 |}.
Definition v3 : PhotoSize.t :=
  {| PhotoSize.file_id := "large"; PhotoSize.width := 1280; PhotoSize.height := 853 |}.

Definition picture : Message.t :=
  {| Message.message_id := 1;
     Message.photo := [v1; v2; v3];
     Message.video := None |}.

(** A photo message arriving from chat [chat_id]. *)
Definition from (chat_id : Z) : Update.t :=
  {| Update.effective_chat := Some {| Chat.id := chat_id |};
     Update.effective_message := Some picture;
     Update.message := Some picture |}.

(** Library functions reduced to the bare minimum: the dispatcher's
    data is already text, the traceback is the list of frames. *)
Definition rt : Runtime string :=
  {| to_dict := fun _ => JDict [];
     json_dumps := fun _ => "{}";
     str_data := fun d => d;
     format_exception := fun f => frames f |}.

Definition failure : Failure :=
  {| exc := ValueError;
     frames := [ ("Traceback (most recent call last):" ++ Py.nl)%string;
                 ("ValueError: <script>alert(1)</script>" ++ Py.nl)%string ] |}.

Definition context : Context string :=
  {| error := failure; chat_data := "{}"; user_data := "{}" |}.

End Fixture.

(** ** Further sample inputs *)

Module Scenario.

Definition clip : Video.t := {| Video.file_id := "clip-7" |}.

Definition film : Message.t :=
  {| Message.message_id := 2;
     Message.photo := [];
     Message.video := Some clip |}.

(** A video message arriving from chat [chat_id]. *)
Definition video_from (chat_id : Z) : Update.t :=
  {| Update.effective_chat := Some {| Chat.id := chat_id |};
     Update.effective_message := Some film;
     Update.message := Some film |}.

(** A text message: neither photo variants nor a video. *)
Definition note : Message.t :=
  {| Message.message_id := 3;
     Message.photo := [];
     Message.video := None |}.

Definition text_from (chat_id : Z) : Update.t :=
  {| Update.effective_chat := Some {| Chat.id := chat_id |};
     Update.effective_message := Some note;
     Update.message := Some note |}.

(** An edited photo message: [update.message] is unset. *)
Definition edited_from (chat_id : Z) : Update.t :=
  {| Update.effective_chat := Some {| Chat.id := chat_id |};
     Update.effective_message := Some Fixture.picture;
     Update.message := None |}.

(** An update that belongs to no chat. *)
Definition chatless : Update.t :=
  {| Update.effective_chat := None;
     Update.effective_message := None;
     Update.message := None |}.

(** A platform that resolves files without a remote path. *)
Definition pathless : Platform :=
  {| on_get_file := fun _ file_id =>
                      Ok {| File.file_id := file_id; File.file_path := None |};
     on_download := fun _ _ _ => Ok tt;
     on_reply := fun _ _ _ => Ok tt;
     on_send := fun _ _ _ _ => Ok tt |}.

(** A platform whose remote path is given. *)
Definition serving (path : string) : Platform :=
  {| on_get_file := fun _ file_id =>
                      Ok {| File.file_id := file_id; File.file_path := Some path |};
     on_download := fun _ _ _ => Ok tt;
     on_reply := fun _ _ _ => Ok tt;
     on_send := fun _ _ _ _ => Ok tt |}.

(** A platform on which replies fail. *)
Definition mute : Platform :=
  {| on_get_file := fun _ file_id => Ok (Fixture.remote file_id);
     on_download := fun _ _ _ => Ok tt;
     on_reply := fun _ _ _ => Err (TelegramError "Timed out");
     on_send := fun _ _ _ _ => Ok tt |}.

(** A platform that resolves no file. *)
Definition offline : Platform :=
  {| on_get_file := fun _ _ => Err (TelegramError "Bad Gateway");
     on_download := fun _ _ _ => Ok tt;
     on_reply := fun _ _ _ => Ok tt;
     on_send := fun _ _ _ _ => Ok tt |}.

(** A platform on which writing fails. *)
Definition readonly : Platform :=
  {| on_get_file := fun _ file_id => Ok (Fixture.remote file_id);
     on_download := fun _ _ _ => Err (TelegramError "Read-only file system");
     on_reply := fun _ _ _ => Ok tt;
     on_send := fun _ _ _ _ => Ok tt |}.

(** A process started without the developer's chat id. *)
Definition unset : Config :=
  {| DEVELOPER_CHAT_ID := None; BOT_TOKEN := Some "123:abc" |}.

Definition traceback (e : exn) : list string :=
  [("Traceback (most recent call last):" ++ Py.nl)%string].

End Scenario.

(** Unfolds the monad so that a handler's run reduces by computation. *)
Ltac run :=
  unfold bind, lift, ret, raise, perform, getattr in *; simpl in *.

(** ** Strings *)

Section Strings.

Local Open Scope string_scope.

Lemma append_assoc (a b c : string) : (a ++ b) ++ c = a ++ b ++ c.
Proof.
  induction a as [|x a IH]; simpl; [reflexivity|].
  now rewrite IH.
Qed.

Lemma append_nil_r (a : string) : a ++ "" = a.
Proof.
  induction a as [|x a IH]; simpl; [reflexivity|].
  now rewrite IH.
Qed.

Lemma contains_refl (s : string) : contains s s.
Proof. exists "", "". simpl. now rewrite append_nil_r. Qed.

Lemma contains_app_r (n a b : string) : contains n b -> contains n (a ++ b).
Proof.
  intros (p & q & ->). exists (a ++ p), q.
  now rewrite append_assoc.
Qed.

Lemma contains_app_l (n a b : string) : contains n a -> contains n (a ++ b).
Proof.
  intros (p & q & ->). exists p, (q ++ b).
  now rewrite !append_assoc.
Qed.

Lemma has_char_app (c : ascii) (a b : string) :
  has_char c (a ++ b) = has_char c a || has_char c b.
Proof.
  induction a as [|x a IH]; simpl; [reflexivity|].
  now rewrite IH, orb_assoc.
Qed.

(** A string without ["<"] in front changes nothing. *)
Lemma opens_s_tag_skip (a b : string) :
  has_char "<" a = false -> opens_s_tag (a ++ b) = opens_s_tag b.
Proof.
  induction a as [|x a IH]; simpl; [reflexivity|].
  intros H. apply orb_false_elim in H as [Hx Ha].
  rewrite Hx. simpl. now apply IH.
Qed.

Lemma opens_s_tag_app_r (a b : string) :
  opens_s_tag b = true -> opens_s_tag (a ++ b) = true.
Proof.
  intros Hb. induction a as [|x a IH]; simpl; [exact Hb|].
  rewrite IH. apply orb_true_r.
Qed.

Lemma contains_script_opens (s : string) :
  contains "<script>" s -> opens_s_tag s = true.
Proof.
  intros (p & q & ->). apply opens_s_tag_app_r. reflexivity.
Qed.

(** *** [replace] and [html.escape] *)

Lemma replace_app (old : ascii) (new a b : string) :
  Py.replace old new (a ++ b) = Py.replace old new a ++ Py.replace old new b.
Proof.
  induction a as [|x a IH]; simpl; [reflexivity|].
  destruct (Ascii.eqb x old); rewrite IH; simpl; [|reflexivity].
  now rewrite append_assoc.
Qed.

Lemma html_escape_app (a b : string) :
  Py.html_escape (a ++ b) = Py.html_escape a ++ Py.html_escape b.
Proof.
  unfold Py.html_escape. now rewrite !replace_app.
Qed.

Lemma html_escape_contains (n s : string) :
  contains n s -> contains (Py.html_escape n) (Py.html_escape s).
Proof.
  intros (p & q & ->). exists (Py.html_escape p), (Py.html_escape q).
  now rewrite !html_escape_app.
Qed.

(** Replacing [c] itself, or anything else, by text free of [c]
    leaves no [c] where there was none or where it was replaced. *)
Lemma replace_removes (c old : ascii) (new s : string) :
  has_char c new = false ->
  c = old \/ has_char c s = false ->
  has_char c (Py.replace old new s) = false.
Proof.
  intros Hnew Hs. induction s as [|x s IH]; simpl; [reflexivity|].
  destruct (Ascii.eqb_spec x old) as [->|Hx].
  - rewrite has_char_app, Hnew. simpl. apply IH.
    destruct Hs as [Hs|Hs]; [now left|right].
    simpl in Hs. now apply orb_false_elim in Hs.
  - simpl. destruct Hs as [->|Hs].
    + apply Ascii.eqb_neq in Hx. rewrite Hx. simpl. apply IH. now left.
    + simpl in Hs. apply orb_false_elim in Hs as [H1 H2].
      rewrite H1. simpl. apply IH. now right.
Qed.

Lemma html_escape_no_lt (s : string) : has_char "<" (Py.html_escape s) = false.
Proof.
  unfold Py.html_escape.
  do 3 (apply replace_removes; [reflexivity|right]).
  apply replace_removes; [reflexivity|now left].
Qed.

Lemma html_escape_no_gt (s : string) : has_char ">" (Py.html_escape s) = false.
Proof.
  unfold Py.html_escape.
  do 2 (apply replace_removes; [reflexivity|right]).
  apply replace_removes; [reflexivity|now left].
Qed.

End Strings.

(** ** Lists indexed from the end, [split] and [join] *)

Section Segments.

Local Open Scope string_scope.

Lemma index_last_snoc {A : Type} (l : list A) (x : A) :
  index_last (l ++ [x])%list = Ok x.
Proof. unfold index_last. now rewrite rev_unit. Qed.

Lemma index_last_nonempty {A : Type} (l : list A) :
  l <> [] -> exists init x, l = (init ++ [x])%list /\ index_last l = Ok x.
Proof.
  intros H. destruct (exists_last H) as (init & x & ->).
  exists init, x. split; [reflexivity|apply index_last_snoc].
Qed.

Lemma split_nonempty (sep : ascii) (s : string) : Py.split sep s <> [].
Proof.
  destruct s as [|c r]; simpl; [discriminate|].
  destruct (Ascii.eqb c sep); [discriminate|].
  destruct (Py.split sep r); discriminate.
Qed.

(** Joining the pieces with the separator gives the string back. *)
Lemma join_split (sep : ascii) (s : string) :
  Py.join (String sep "") (Py.split sep s) = s.
Proof.
  unfold Py.join. induction s as [|c r IH]; simpl; [reflexivity|].
  pose proof (split_nonempty sep r) as Hne.
  destruct (Ascii.eqb_spec c sep) as [->|Hc].
  - destruct (Py.split sep r) as [|h t]; [contradiction|].
    simpl in *. now rewrite IH.
  - destruct (Py.split sep r) as [|h t]; [contradiction|].
    destruct t as [|h' t]; simpl in *; now rewrite <- IH.
Qed.

Lemma split_no_sep (sep : ascii) (s : string) :
  Forall (fun piece => has_char sep piece = false) (Py.split sep s).
Proof.
  induction s as [|c r IH]; simpl.
  - now constructor.
  - destruct (Ascii.eqb_spec c sep) as [->|Hc].
    + now constructor.
    + destruct (Py.split sep r) as [|h t].
      * constructor; [|constructor]. simpl.
        apply Ascii.eqb_neq in Hc. now rewrite Hc.
      * inversion IH as [|? ? Hh Ht]; subst. constructor; [|exact Ht].
        simpl. apply Ascii.eqb_neq in Hc. now rewrite Hc.
Qed.

Lemma concat_snoc (sep : string) (init : list string) (x : string) :
  init <> [] ->
  String.concat sep (init ++ [x]) = String.concat sep init ++ sep ++ x.
Proof.
  induction init as [|a init IH]; [contradiction|]. intros _.
  destruct init as [|b init].
  - reflexivity.
  - change (String.concat sep ((a :: b :: init) ++ [x]))
      with (a ++ sep ++ String.concat sep ((b :: init) ++ [x])).
    rewrite IH by discriminate.
    change (String.concat sep (a :: b :: init))
      with (a ++ sep ++ String.concat sep (b :: init)).
    now rewrite !append_assoc.
Qed.

(** [path.split("/")[-1]] never raises; it yields the text after the
    last slash, or the whole path when there is none. *)
Lemma final_segment (path : string) :
  exists name,
    index_last (Py.split "/" path) = Ok name
    /\ has_char "/" name = false
    /\ (path = name \/ exists dir, path = dir ++ "/" ++ name).
Proof.
  destruct (index_last_nonempty (Py.split "/" path) (split_nonempty _ _))
    as (init & name & Hsplit & Hlast).
  exists name. split; [exact Hlast|].
  pose proof (split_no_sep "/" path) as Hall.
  pose proof (join_split "/" path) as Hjoin.
  rewrite Hsplit in Hall, Hjoin. split.
  - apply Forall_app in Hall as [_ Hx]. now inversion Hx.
  - destruct init as [|a init].
    + left. now rewrite <- Hjoin.
    + right. exists (String.concat "/" (a :: init)).
      rewrite <- Hjoin. unfold Py.join.
      apply (concat_snoc "/" (a :: init) name). discriminate.
Qed.

End Segments.

(** ** The ASCII reading inverts [str] *)

Section IntOfStr.

Local Open Scope string_scope.

Lemma lstrip_uint (d : Decimal.uint) :
  Py.lstrip (NilEmpty.string_of_uint d) = NilEmpty.string_of_uint d.
Proof. destruct d; reflexivity. Qed.

Lemma rstrip_uint (d : Decimal.uint) :
  Py.rstrip (NilEmpty.string_of_uint d) = NilEmpty.string_of_uint d.
Proof.
  induction d as [|d IH|d IH|d IH|d IH|d IH|d IH|d IH|d IH|d IH|d IH];
    [reflexivity|..];
    cbn [NilEmpty.string_of_uint Py.rstrip]; rewrite IH;
    destruct (NilEmpty.string_of_uint d); reflexivity.
Qed.

(** Reading the digits of [d] after an accumulated [p]. *)
Lemma digits_of_uint_acc (d : Decimal.uint) (p : positive) :
  Py.digits (Z.pos p) true (NilEmpty.string_of_uint d)
  = Some (Z.pos (Pos.of_uint_acc d p)).
Proof.
  revert p.
  induction d as [|d IH|d IH|d IH|d IH|d IH|d IH|d IH|d IH|d IH|d IH];
    intros p; [reflexivity|..];
    cbn [NilEmpty.string_of_uint Py.digits Pos.of_uint_acc];
    change (Py.is_digit _) with true; cbv iota;
    rewrite <- IH; f_equal;
    match goal with
    | |- context [Py.digit_val ?c] =>
        let v := eval vm_compute in (Py.digit_val c) in
        change (Py.digit_val c) with v
    end; lia.
Qed.

Lemma digits_of_uint (d : Decimal.uint) :
  Py.digits 0 true (NilEmpty.string_of_uint d) = Some (Z.of_N (Pos.of_uint d)).
Proof.
  induction d as [|d IH|d IH|d IH|d IH|d IH|d IH|d IH|d IH|d IH|d IH];
    [reflexivity|exact IH|..];
    cbn [NilEmpty.string_of_uint Py.digits Pos.of_uint];
    change (Py.is_digit _) with true; cbv iota;
    exact (digits_of_uint_acc d _).
Qed.

Lemma digits_first (d : Decimal.uint) :
  d <> Decimal.Nil ->
  Py.digits 0 false (NilEmpty.string_of_uint d)
  = Py.digits 0 true (NilEmpty.string_of_uint d).
Proof. destruct d; [contradiction|reflexivity..]. Qed.

Lemma int_of_ascii_uint (d : Decimal.uint) :
  d <> Decimal.Nil ->
  Py.int_of_ascii (NilEmpty.string_of_uint d) = Some (Z.of_N (Pos.of_uint d)).
Proof.
  intros Hd. rewrite <- digits_of_uint, <- digits_first by exact Hd.
  unfold Py.int_of_ascii. rewrite lstrip_uint, rstrip_uint.
  destruct d; [contradiction|reflexivity..].
Qed.

Lemma int_of_ascii_neg_uint (d : Decimal.uint) :
  d <> Decimal.Nil ->
  Py.int_of_ascii (String "-" (NilEmpty.string_of_uint d))
  = Some (- Z.of_N (Pos.of_uint d)).
Proof.
  intros Hd. unfold Py.int_of_ascii.
  change (Py.lstrip (String "-" ?s)) with (String "-" s).
  cbn [Py.rstrip]. rewrite rstrip_uint.
  destruct (NilEmpty.string_of_uint d) eqn:Hs.
  - destruct d; try contradiction; discriminate.
  - rewrite <- Hs, digits_first, digits_of_uint by exact Hd. reflexivity.
Qed.

Lemma string_of_uint_nonnil (d : Decimal.uint) :
  d <> Decimal.Nil ->
  NilZero.string_of_uint d = NilEmpty.string_of_uint d.
Proof. destruct d; [contradiction|reflexivity..]. Qed.

(** Whatever integer is written out with [str] is read back by the
    ASCII reading. *)
Lemma int_str (n : Z) : @int ascii_python (Some (Py.str n)) = Ok n.
Proof.
  unfold int, ascii_python, int_of_str, Py.str. destruct n as [|p|p]; [reflexivity|..];
    pose proof (DecimalPos.Unsigned.to_uint_nonnil p) as Hp;
    cbn [Z.to_int NilZero.string_of_int];
    rewrite string_of_uint_nonnil by exact Hp.
  - rewrite int_of_ascii_uint, DecimalPos.Unsigned.of_to by exact Hp.
    reflexivity.
  - rewrite int_of_ascii_neg_uint, DecimalPos.Unsigned.of_to by exact Hp.
    reflexivity.
Qed.

End IntOfStr.

(** ** The access guard *)

Section Guard.

Context {py : Python}.
Variable env : Config.
Variable bot : Platform.

Lemma check_user_authorized (u : Update.t) (chat : Chat.t) (t : trace) :
  Update.effective_chat u = Some chat ->
  int (DEVELOPER_CHAT_ID env) = Ok (Chat.id chat) ->
  check_user env u t = (t, Ok tt).
Proof.
  intros Hc Hi. unfold check_user. run. rewrite Hc, Hi.
  now rewrite Z.eqb_refl.
Qed.

Lemma check_user_unauthorized (u : Update.t) (chat : Chat.t) (a : Z) (t : trace) :
  Update.effective_chat u = Some chat ->
  int (DEVELOPER_CHAT_ID env) = Ok a ->
  Chat.id chat <> a ->
  check_user env u t = (t, Err (Forbidden "Unauthorized user")).
Proof.
  intros Hc Hi Hne. unfold check_user. run. rewrite Hc, Hi.
  apply Z.eqb_neq in Hne. now rewrite Hne.
Qed.

Lemma check_user_misconfigured (u : Update.t) (chat : Chat.t) (e : exn) (t : trace) :
  Update.effective_chat u = Some chat ->
  int (DEVELOPER_CHAT_ID env) = Err e ->
  check_user env u t = (t, Err e).
Proof.
  intros Hc Hi. unfold check_user. run. now rewrite Hc, Hi.
Qed.

(** Whatever the guard decides, it issues nothing. *)
Lemma check_user_silent (u : Update.t) (t : trace) :
  fst (check_user env u t) = t.
Proof.
  unfold check_user. run.
  destruct (Update.effective_chat u); [|reflexivity].
  destruct (int (DEVELOPER_CHAT_ID env)); [|reflexivity].
  now destruct (negb _).
Qed.

(** A handler that starts with the guard stops where the guard does. *)
Lemma guard_stops {A : Type} (u : Update.t) (k : unit -> M A) (e : exn) (t : trace) :
  check_user env u t = (t, Err e) ->
  bind (check_user env u) k t = (t, Err e).
Proof. intros H. unfold bind. now rewrite H. Qed.

Lemma guard_passes {A : Type} (u : Update.t) (k : unit -> M A) (t : trace) :
  check_user env u t = (t, Ok tt) ->
  bind (check_user env u) k t = k tt t.
Proof. intros H. unfold bind. now rewrite H. Qed.

(** C7. The guard raises the unauthorized failure exactly when the
    origin chat id differs from the configured identity; when they
    are equal it returns normally; in both cases the history of
    issued calls is left as it was. *)
Theorem check_user_spec (u : Update.t) (chat : Chat.t) (a : Z) (t : trace) :
  Update.effective_chat u = Some chat ->
  int (DEVELOPER_CHAT_ID env) = Ok a ->
  fst (check_user env u t) = t
  /\ (snd (check_user env u t) = Err (Forbidden "Unauthorized user")
      <-> Chat.id chat <> a)
  /\ (snd (check_user env u t) = Ok tt <-> Chat.id chat = a).
Proof.
  intros Hc Hi. split; [apply check_user_silent|].
  destruct (Z.eq_dec (Chat.id chat) a) as [Heq|Hne].
  - subst a. rewrite (check_user_authorized u chat t Hc Hi). simpl.
    split; split; intros H; try reflexivity; try discriminate.
    now contradiction H.
  - rewrite (check_user_unauthorized u chat a t Hc Hi Hne). simpl.
    split; split; intros H; try reflexivity; try discriminate; try assumption.
    contradiction.
Qed.

(** With the identity read as [a], the guard lets through the updates
    of chat [a] and of no other. *)
Lemma check_user_passes_iff (u : Update.t) (chat : Chat.t) (a : Z) (t : trace) :
  int (DEVELOPER_CHAT_ID env) = Ok a ->
  Update.effective_chat u = Some chat ->
  (check_user env u t = (t, Ok tt) <-> Chat.id chat = a).
Proof.
  intros Hi Hc.
  split.
  - intros Hok. destruct (Z.eq_dec (Chat.id chat) a) as [Heq|Hne]; [exact Heq|].
    rewrite (check_user_unauthorized u chat a t Hc Hi Hne) in Hok. discriminate.
  - intros <-. now apply check_user_authorized with chat.
Qed.

(** Unlike [start], [image] and [video], [bad_command] does not call
    the guard: for every caller, authorized or not, and under every
    configuration, it raises the intentional fault, having issued
    nothing; its outcome is never the one the guard has for the same
    update. *)
Lemma bad_command_always_faults (u : Update.t) (t : trace) :
  bad_command u t = (t, Err (AttributeError "wrong_method_name"))
  /\ snd (bad_command u t) <> snd (check_user env u t).
Proof.
  split; [reflexivity|].
  unfold bad_command, check_user. run.
  destruct (Update.effective_chat u) as [chat|]; [|discriminate].
  unfold int. destruct (DEVELOPER_CHAT_ID env) as [s|]; [|discriminate].
  destruct (int_of_str s) as [a|]; [|discriminate].
  destruct (negb (Chat.id chat =? a)); discriminate.
Qed.


(** C8. When the authorized chat invokes [start], the one call
    issued is a reply to the triggering message whose text contains
    the decimal rendering of the caller's chat id. *)
Theorem start_echoes_chat_id
        (u : Update.t) (chat : Chat.t) (msg : Message.t) (t : trace) :
  Update.effective_chat u = Some chat ->
  Update.effective_message u = Some msg ->
  int (DEVELOPER_CHAT_ID env) = Ok (Chat.id chat) ->
  exists text,
    start env bot u t = ((t ++ [ReplyHtml msg text])%list, on_reply bot t msg text)
    /\ contains (Py.str (Chat.id chat)) text.
Proof.
  intros Hc Hm Hi. exists (usage_text (Chat.id chat)). split.
  - unfold start. rewrite guard_passes by now apply check_user_authorized with chat.
    run. now rewrite Hm, Hc.
  - unfold usage_text. do 3 apply contains_app_r.
    apply contains_app_l, contains_refl.
Qed.

End Guard.

(** ** The guard under the ASCII reading *)

Section AsciiGuard.

#[local] Existing Instance ascii_python.

Variable env : Config.

(** X1. With the identity written out in decimal, the guard lets through
    the updates of that chat and of no other. *)
Lemma check_user_configured (u : Update.t) (chat : Chat.t) (a : Z) (t : trace) :
  DEVELOPER_CHAT_ID env = Some (Py.str a) ->
  Update.effective_chat u = Some chat ->
  (check_user env u t = (t, Ok tt) <-> Chat.id chat = a).
Proof.
  intros Hcfg Hc. apply check_user_passes_iff; [|exact Hc].
  rewrite Hcfg. apply int_str.
Qed.

End AsciiGuard.

(** ** Misconfiguration *)

Section Misconfigured.

Context {py : Python}.
Variable getenv : string -> option string.
Variable bot : Platform.

(** C10. The identity is kept as the string the environment gave
    and converted by each guard check.  When the variable is absent
    or holds a string that [int] does not accept, no update ever
    passes the guard, and
    [start], [image] and [video] fail with the conversion error
    ([TypeError] when absent, [ValueError] otherwise), whatever chat
    the update comes from, having issued nothing. *)
Theorem misconfigured_guard_conversion_error
        (u : Update.t) (chat : Chat.t) (t : trace) :
  getenv "DEVELOPER_CHAT_ID" = None
  \/ (exists s, getenv "DEVELOPER_CHAT_ID" = Some s /\ int_of_str s = None) ->
  Update.effective_chat u = Some chat ->
  let env := load_config getenv in
  let e := match DEVELOPER_CHAT_ID env with
           | None => TypeError
           | Some _ => ValueError
           end in
  (forall u' t', snd (check_user env u' t') <> Ok tt)
  /\ check_user env u t = (t, Err e)
  /\ start env bot u t = (t, Err e)
  /\ image env bot u t = (t, Err e)
  /\ video env bot u t = (t, Err e).
Proof.
  intros Hcfg Hc env e.
  assert (Hint : int (DEVELOPER_CHAT_ID env) = Err e).
  { subst e env. unfold load_config. simpl.
    destruct Hcfg as [->| (s & -> & Hs)]; simpl; [reflexivity|].
    now rewrite Hs. }
  pose proof (check_user_misconfigured env u chat e t Hc Hint) as Hg.
  split.
  - intros u' t'. unfold check_user. run.
    destruct (Update.effective_chat u'); [|discriminate].
    rewrite Hint. discriminate.
  - repeat split; try exact Hg; apply guard_stops; exact Hg.
Qed.

End Misconfigured.

(** ** Downloading *)

Section Download.

Local Open Scope list_scope.

Context {py : Python}.
Variable env : Config.
Variable bot : Platform.

Lemma requested_app (a b : trace) :
  requested (a ++ b) = (requested a ++ requested b)%list.
Proof.
  induction a as [|x a IH]; simpl; [reflexivity|].
  destruct x; simpl; now rewrite IH.
Qed.

Lemma chat_messages_app (a b : trace) :
  chat_messages (a ++ b) = (chat_messages a ++ chat_messages b)%list.
Proof.
  induction a as [|x a IH]; simpl; [reflexivity|].
  destruct x; simpl; now rewrite IH.
Qed.

(** The downloader asks the platform for its argument and for no
    other file. *)
Lemma download_file_requests (file_id : string) (t : trace) :
  requested (fst (download_file bot file_id t))
  = (requested t ++ [file_id])%list.
Proof.
  unfold download_file, get_file, download_to_drive. run.
  destruct (on_get_file bot t file_id) as [f|e]; simpl.
  - destruct (File.file_path f) as [p|]; simpl.
    + destruct (index_last (Py.split "/" p)); simpl;
        rewrite !requested_app; simpl; now rewrite ?app_nil_r.
    + now rewrite requested_app.
  - now rewrite requested_app.
Qed.

(** Replies do not touch the list of requested files. *)
Lemma requested_after {A : Type} (m : M unit) (k : unit -> M A) (t : trace) :
  (forall t', requested (fst (k tt t')) = requested t') ->
  requested (fst (bind m k t)) = requested (fst (m t)).
Proof.
  intros Hk. unfold bind. destruct (m t) as [t' [[]|e]]; simpl; [apply Hk|reflexivity].
Qed.

Lemma check_user_cases (u : Update.t) (t : trace) :
  check_user env u t = (t, Ok tt) \/ exists e, check_user env u t = (t, Err e).
Proof.
  pose proof (check_user_silent env u t) as Hs.
  destruct (check_user env u t) as [t' [[]|e]]; simpl in Hs; subst t';
    [now left|right; now exists e].
Qed.



(** C4. When the platform resolves the reference to a file with a
    remote path, the downloader writes it under ["/files/"] followed
    by a name that holds no slash and is the part of the remote path
    after its last slash (the whole path when it has none). *)
Theorem download_file_final_segment
        (file_id : string) (f : File.t) (path : string) (t : trace) :
  on_get_file bot t file_id = Ok f ->
  File.file_path f = Some path ->
  exists name,
    download_file bot file_id t
    = ((t ++ [GetFile file_id; DownloadToDrive f ("/files/" ++ name)%string])%list,
       on_download bot (t ++ [GetFile file_id])%list f ("/files/" ++ name)%string)
    /\ has_char "/" name = false
    /\ (path = name \/ exists dir, path = (dir ++ "/" ++ name)%string).
Proof.
  intros Hf Hp. destruct (final_segment path) as (name & Hlast & Hname & Hpath).
  exists name. split; [|now split].
  unfold download_file, get_file, download_to_drive. run.
  rewrite Hf, Hp, Hlast. simpl. now rewrite <- app_assoc.
Qed.

End Download.

(** ** The error reporter *)

Section Reporter.

Local Open Scope list_scope.

Variable data : Type.
Variable rt : Runtime data.
Variable env : Config.
Variable bot : Platform.

(** One run logs the failure and sends the report, nothing else. *)
Lemma error_handler_run (update : object) (context : Context data) (t : trace) :
  error_handler rt env bot update context t
  = (t ++ report_actions env context (report_text rt update context),
     on_send bot (t ++ [LogError "Exception while handling an update:"
                                 (error context)])
             (DEVELOPER_CHAT_ID env) (report_text rt update context) HTML).
Proof.
  unfold error_handler, logger_error, send_message, report_actions. run.
  now rewrite <- app_assoc.
Qed.

(** The report holds no ["<"] followed by ["s"]: the only tags are
    the template's own. *)
Lemma report_text_no_s_tag (update : object) (context : Context data) :
  opens_s_tag (report_text rt update context) = false.
Proof.
  unfold report_text. simpl.
  repeat (rewrite opens_s_tag_skip by apply html_escape_no_lt; simpl).
  reflexivity.
Qed.

Lemma report_text_embeds (update : object) (context : Context data) (part : string) :
  In part (components rt update context) ->
  contains (Py.html_escape part) (report_text rt update context).
Proof.
  unfold components. intros [<-|[<-|[<-|[<-|[]]]]]; unfold report_text.
  - do 3 apply contains_app_r. apply contains_app_l, contains_refl.
  - do 8 apply contains_app_r. apply contains_app_l, contains_refl.
  - do 13 apply contains_app_r. apply contains_app_l, contains_refl.
  - do 18 apply contains_app_r. apply contains_app_l, contains_refl.
Qed.

Lemma contains_trans (a b c : string) :
  contains a b -> contains b c -> contains a c.
Proof.
  intros (p & q & ->) (p' & q' & ->). exists (p' ++ p)%string, (q ++ q')%string.
  now rewrite !append_assoc.
Qed.

(** C5. Whichever of the four embedded components carries the
    markup [<script>], the message the reporter sends holds it in
    escaped form, and holds the raw form nowhere. *)
Theorem error_report_escapes_markup
        (update : object) (context : Context data) (part : string) (t : trace) :
  In part (components rt update context) ->
  contains "<script>" part ->
  exists text,
    fst (error_handler rt env bot update context t)
    = t ++ report_actions env context text
    /\ contains "&lt;script&gt;" text
    /\ ~ contains "<script>" text.
Proof.
  intros Hin Hpart. exists (report_text rt update context).
  rewrite error_handler_run. split; [reflexivity|]. split.
  - apply contains_trans with (Py.html_escape part).
    + apply (html_escape_contains "<script>" part Hpart).
    + now apply report_text_embeds.
  - intros H. apply contains_script_opens in H.
    rewrite report_text_no_s_tag in H. discriminate.
Qed.

(** C6. One run of the reporter sends exactly one chat message: to
    the configured developer chat, in HTML parse mode, its text being
    the heading followed by the four [<pre>] sections, each holding
    one escaped component. *)
Theorem error_handler_sends_one_report
        (update : object) (context : Context data) (t : trace) :
  exists text c1 c2 c3 c4,
    components rt update context = [c1; c2; c3; c4]
    /\ chat_messages (fst (error_handler rt env bot update context t))
       = chat_messages t ++ [(inl (DEVELOPER_CHAT_ID env), text, HTML)]
    /\ text
       = ("An exception was raised while handling an update" ++ Py.nl
          ++ pre_block ("update = " ++ Py.html_escape c1) ++ Py.nl ++ Py.nl
          ++ pre_block ("context.chat_data = " ++ Py.html_escape c2)
          ++ Py.nl ++ Py.nl
          ++ pre_block ("context.user_data = " ++ Py.html_escape c3)
          ++ Py.nl ++ Py.nl
          ++ pre_block (Py.html_escape c4))%string.
Proof.
  exists (report_text rt update context).
  unfold components. do 4 eexists. split; [reflexivity|]. split.
  - rewrite error_handler_run. simpl. now rewrite chat_messages_app.
  - unfold report_text, pre_block.
    rewrite !append_assoc. reflexivity.
Qed.

(** C9. Two failures reported one after the other: what the second
    run issues is what it would issue with no history at all, on any
    platform and after any history; the two messages sent are the
    report texts of the respective failure, each a function of that
    failure's own update and context. *)
Theorem error_reports_independent
        (update1 update2 : object) (context1 context2 : Context data)
        (t : trace) (bot' : Platform) (t' : trace) :
  let t1 := fst (error_handler rt env bot update1 context1 t) in
  let t2 := fst (error_handler rt env bot update2 context2 t1) in
  t1 = t ++ fst (error_handler rt env bot update1 context1 [])
  /\ t2 = t1 ++ fst (error_handler rt env bot update2 context2 [])
  /\ fst (error_handler rt env bot' update2 context2 t')
     = t' ++ fst (error_handler rt env bot update2 context2 [])
  /\ chat_messages t2
     = chat_messages t
       ++ [(inl (DEVELOPER_CHAT_ID env), report_text rt update1 context1, HTML);
           (inl (DEVELOPER_CHAT_ID env), report_text rt update2 context2, HTML)].
Proof.
  intros t1 t2. subst t1 t2. rewrite !error_handler_run. simpl.
  repeat split.
  - unfold report_actions. now rewrite <- app_assoc.
  - rewrite !chat_messages_app. simpl. now rewrite <- app_assoc.
Qed.

End Reporter.

(** ** The claims on sample inputs *)

Section Samples.

Local Open Scope list_scope.

Import Fixture.

#[local] Existing Instance ascii_python.

Example html_escape_script : Py.html_escape "<script>" = "&lt;script&gt;"%string.
Proof. reflexivity. Qed.

Example html_escape_ampersand_first :
  Py.html_escape "a<b & 'c'" = "a&lt;b &amp; &#x27;c&#x27;"%string.
Proof. reflexivity. Qed.

Example split_remote_path :
  Py.split "/" "abc/def/image123.jpg" = ["abc"; "def"; "image123.jpg"]%string.
Proof. reflexivity. Qed.

Example split_trailing_slash : Py.split "/" "abc/" = ["abc"; ""]%string.
Proof. reflexivity. Qed.

Example int_plain : int (Some "42"%string) = Ok 42.
Proof. reflexivity. Qed.

Example int_padded_signed : int (Some " -1_000 "%string) = Ok (-1000).
Proof. reflexivity. Qed.

Example int_words : int (Some "forty-two"%string) = Err ValueError.
Proof. reflexivity. Qed.

Example int_trailing_underscore : int (Some "4_"%string) = Err ValueError.
Proof. reflexivity. Qed.

Example int_unset : int None = Err TypeError.
Proof. reflexivity. Qed.

(** A control character is no blank: it is not dropped. *)
Example int_control_character :
  int (Some (String "028"%char "42")) = Err ValueError.
Proof. reflexivity. Qed.

Example str_negative : Py.str (-120) = "-120"%string.
Proof. reflexivity. Qed.

(** The developer's photo: the largest variant is fetched and stored
    under the last segment of its remote path, then confirmed. *)
Example image_developer :
  image env quiet (from 42) []
  = ([GetFile "large";
      DownloadToDrive (remote "large") "/files/image123.jpg";
      ReplyHtml picture "Downloaded image"], Ok tt).
Proof. reflexivity. Qed.

Example image_stranger :
  image env quiet (from 7) [] = ([], Err (Forbidden "Unauthorized user")).
Proof. reflexivity. Qed.

(** C1.  The developer's chat being 42, the update from chat 7 is one
    the guard rejects, and [start], [image] and [video] reject it with
    the guard's failure; [bad_command], which does not call the guard,
    answers the same update with its intentional fault. *)
Lemma bad_command_skips_guard :
  int (DEVELOPER_CHAT_ID env) = Ok 42
  /\ Update.effective_chat (from 7) = Some {| Chat.id := 7 |}
  /\ check_user env (from 7) [] = ([], Err (Forbidden "Unauthorized user"))
  /\ start env quiet (from 7) [] = ([], Err (Forbidden "Unauthorized user"))
  /\ image env quiet (from 7) [] = ([], Err (Forbidden "Unauthorized user"))
  /\ video env quiet (from 7) [] = ([], Err (Forbidden "Unauthorized user"))
  /\ bad_command (from 7) [] = ([], Err (AttributeError "wrong_method_name")).
Proof. repeat split. Qed.

(** With the developer's chat being 42, the request from chat 7 is not
    answered by the unauthorized failure: the statement that
    [bad_command] lets authorized callers reach the intentional fault
    and rejects all others is false. *)
Lemma bad_command_guard_cex :
  ~ (forall (env : Config) (u : Update.t) (chat : Chat.t) (a : Z) (t : trace),
        Update.effective_chat u = Some chat ->
        int (DEVELOPER_CHAT_ID env) = Ok a ->
        (Chat.id chat = a ->
         snd (bad_command u t) = Err (AttributeError "wrong_method_name"))
        /\ (Chat.id chat <> a ->
            snd (bad_command u t) = Err (Forbidden "Unauthorized user"))).
Proof.
  intros H.
  destruct (H env (from 7) {| Chat.id := 7 |} 42 [] eq_refl eq_refl) as [_ H7].
  assert (Hne : Chat.id {| Chat.id := 7 |} <> 42) by (simpl; lia).
  specialize (H7 Hne). discriminate H7.
Qed.




(** C4 on the remote path of the specification's example. *)
Lemma download_file_final_segment_witness :
  on_get_file quiet [] "large" = Ok (remote "large")
  /\ File.file_path (remote "large") = Some "abc/def/image123.jpg"%string
  /\ exists name,
      download_file quiet "large" []
      = ([GetFile "large";
          DownloadToDrive (remote "large") ("/files/" ++ name)%string],
         on_download quiet [GetFile "large"] (remote "large")
                     ("/files/" ++ name)%string)
      /\ has_char "/" name = false
      /\ ("abc/def/image123.jpg"%string = name
          \/ exists dir, "abc/def/image123.jpg"%string = (dir ++ "/" ++ name)%string).
Proof.
  split; [reflexivity|]. split; [reflexivity|].
  apply (download_file_final_segment quiet "large" (remote "large")
           "abc/def/image123.jpg" []); reflexivity.
Defined.

(** C5 on a failure whose message carries a script tag. *)
Lemma error_report_escapes_markup_witness :
  let part := Py.join "" (frames failure) in
  In part (components rt (an_Update (from 7)) context)
  /\ contains "<script>" part
  /\ exists text,
      fst (error_handler rt env quiet (an_Update (from 7)) context [])
      = [] ++ report_actions env context text
      /\ contains "&lt;script&gt;" text
      /\ ~ contains "<script>" text.
Proof.
  intros part.
  assert (Hin : In part (components rt (an_Update (from 7)) context)).
  { right; right; right; left; reflexivity. }
  assert (Hc : contains "<script>" part).
  { exists ("Traceback (most recent call last):" ++ Py.nl ++ "ValueError: ")%string,
           ("alert(1)</script>" ++ Py.nl)%string.
    reflexivity. }
  split; [exact Hin|]. split; [exact Hc|].
  apply (error_report_escapes_markup string rt env quiet
           (an_Update (from 7)) context part [] Hin Hc).
Defined.

(** C7 on the update from chat 7, the developer's chat being 42. *)
Lemma check_user_spec_witness :
  Update.effective_chat (from 7) = Some {| Chat.id := 7 |}
  /\ int (DEVELOPER_CHAT_ID env) = Ok 42
  /\ fst (check_user env (from 7) []) = []
  /\ (snd (check_user env (from 7) []) = Err (Forbidden "Unauthorized user")
      <-> Chat.id {| Chat.id := 7 |} <> 42)
  /\ (snd (check_user env (from 7) []) = Ok tt
      <-> Chat.id {| Chat.id := 7 |} = 42).
Proof.
  split; [reflexivity|]. split; [reflexivity|].
  apply (check_user_spec env (from 7) {| Chat.id := 7 |} 42 []); reflexivity.
Defined.

(** C8 on the developer's own update. *)
Lemma start_echoes_chat_id_witness :
  Update.effective_chat (from 42) = Some {| Chat.id := 42 |}
  /\ Update.effective_message (from 42) = Some picture
  /\ int (DEVELOPER_CHAT_ID env) = Ok (Chat.id {| Chat.id := 42 |})
  /\ exists text,
      start env quiet (from 42) []
      = ([] ++ [ReplyHtml picture text], on_reply quiet [] picture text)
      /\ contains (Py.str (Chat.id {| Chat.id := 42 |})) text.
Proof.
  split; [reflexivity|]. split; [reflexivity|]. split; [reflexivity|].
  apply (start_echoes_chat_id env quiet (from 42) {| Chat.id := 42 |} picture []);
    reflexivity.
Defined.

(** C10 on an identity spelled out in words. *)
Lemma misconfigured_guard_conversion_error_witness :
  (getenv_garbled "DEVELOPER_CHAT_ID" = None
   \/ exists s, getenv_garbled "DEVELOPER_CHAT_ID" = Some s
                /\ int_of_str s = None)
  /\ Update.effective_chat (from 42) = Some {| Chat.id := 42 |}
  /\ (forall u' t', snd (check_user (load_config getenv_garbled) u' t') <> Ok tt)
  /\ check_user (load_config getenv_garbled) (from 42) [] = ([], Err ValueError)
  /\ start (load_config getenv_garbled) quiet (from 42) [] = ([], Err ValueError)
  /\ image (load_config getenv_garbled) quiet (from 42) [] = ([], Err ValueError)
  /\ video (load_config getenv_garbled) quiet (from 42) [] = ([], Err ValueError).
Proof.
  assert (Hcfg : getenv_garbled "DEVELOPER_CHAT_ID" = None
                 \/ exists s, getenv_garbled "DEVELOPER_CHAT_ID" = Some s
                              /\ int_of_str s = None).
  { right. exists "forty-two"%string. split; reflexivity. }
  split; [exact Hcfg|]. split; [reflexivity|].
  exact (misconfigured_guard_conversion_error getenv_garbled quiet (from 42)
           {| Chat.id := 42 |} [] Hcfg eq_refl).
Defined.

End Samples.


(** ** The downloader on every platform *)

Section Downloader.

Local Open Scope list_scope.

Variable bot : Platform.

Lemma split_app_sep (sep : ascii) (a b : string) :
  Py.split sep (a ++ String sep b)%string = Py.split sep a ++ Py.split sep b.
Proof.
  induction a as [|c a IH]; simpl.
  - now rewrite Ascii.eqb_refl.
  - destruct (Ascii.eqb c sep); rewrite IH; [reflexivity|].
    pose proof (split_nonempty sep a) as Hne.
    destruct (Py.split sep a); [contradiction|reflexivity].
Qed.

Lemma split_without_sep (sep : ascii) (s : string) :
  has_char sep s = false -> Py.split sep s = [s].
Proof.
  induction s as [|c s IH]; simpl; [reflexivity|].
  intros H. apply orb_false_elim in H as [Hc Hs].
  rewrite Hc, (IH Hs). reflexivity.
Qed.

(** Every run of the downloader ends in one of two ways: after the
    lookup alone, with a failure, or after the lookup and one write. *)
Lemma download_file_cases (file_id : string) (t : trace) :
  (exists e,
      download_file bot file_id t = (t ++ [GetFile file_id], Err e)
      /\ (on_get_file bot t file_id = Err e
          \/ exists f, on_get_file bot t file_id = Ok f
                       /\ File.file_path f = None
                       /\ e = AttributeError "split"))
  \/ (exists f path name,
         on_get_file bot t file_id = Ok f
         /\ File.file_path f = Some path
         /\ index_last (Py.split "/" path) = Ok name
         /\ download_file bot file_id t
            = (t ++ [GetFile file_id; DownloadToDrive f ("/files/" ++ name)%string],
               on_download bot (t ++ [GetFile file_id]) f ("/files/" ++ name)%string)).
Proof.
  unfold download_file, get_file, download_to_drive. run.
  destruct (on_get_file bot t file_id) as [f|e] eqn:Hf.
  - destruct (File.file_path f) as [path|] eqn:Hp.
    + right. destruct (final_segment path) as (name & Hlast & _).
      exists f, path, name. rewrite Hlast. simpl.
      now rewrite <- app_assoc.
    + left. exists (AttributeError "split"). split; [reflexivity|].
      right. now exists f.
  - left. exists e. split; [reflexivity|now left].
Qed.

(** X13. The downloader asks the platform once for the file, writes at most
    once, sends nothing, and returns normally only when the lookup and
    the write both succeeded: a failure is never retried. *)
Theorem download_file_single_attempt (file_id : string) (t : trace) :
  exists rest,
    fst (download_file bot file_id t) = t ++ GetFile file_id :: rest
    /\ (length rest <= 1)%nat
    /\ requested rest = []
    /\ chat_messages rest = []
    /\ (snd (download_file bot file_id t) = Ok tt ->
        exists f target,
          on_get_file bot t file_id = Ok f
          /\ rest = [DownloadToDrive f target]
          /\ on_download bot (t ++ [GetFile file_id]) f target = Ok tt).
Proof.
  destruct (download_file_cases file_id t)
    as [(e & -> & _)|(f & path & name & Hf & _ & _ & ->)].
  - exists []. simpl. repeat split; auto. discriminate.
  - exists [DownloadToDrive f ("/files/" ++ name)%string]. simpl.
    repeat split; auto. intros Hok. now exists f, ("/files/" ++ name)%string.
Qed.

(** X14. A file the platform resolves without a remote path is looked up
    but never written: the downloader fails on the missing path. *)
Theorem download_file_without_path (file_id : string) (f : File.t) (t : trace) :
  on_get_file bot t file_id = Ok f ->
  File.file_path f = None ->
  download_file bot file_id t
  = (t ++ [GetFile file_id], Err (AttributeError "split")).
Proof.
  intros Hf Hp.
  destruct (download_file_cases file_id t)
    as [(e & Hrun & [He|(f' & Hf' & _ & ->)])|(f' & path & _ & Hf' & Hp' & _)].
  - rewrite Hf in He. discriminate.
  - exact Hrun.
  - rewrite Hf in Hf'. injection Hf' as <-. rewrite Hp in Hp'. discriminate.
Qed.

(** A lookup the platform refuses is passed on as it is, and nothing
    is written. *)
Lemma download_file_lookup_failure (file_id : string) (e : exn) (t : trace) :
  on_get_file bot t file_id = Err e ->
  download_file bot file_id t = (t ++ [GetFile file_id], Err e).
Proof.
  intros Hf.
  destruct (download_file_cases file_id t)
    as [(e' & Hrun & [He|(f' & Hf' & _)])|(f' & path & _ & Hf' & _)].
  - rewrite Hf in He. injection He as <-. exact Hrun.
  - rewrite Hf in Hf'. discriminate.
  - rewrite Hf in Hf'. discriminate.
Qed.

(** X15. The local name depends on nothing but what follows the last slash:
    remote files of the same name in different directories are
    written to the same local file, and a remote path that ends in a
    slash is written to the base directory itself. *)
Theorem download_file_same_name_same_target
        (file_id : string) (f : File.t) (dir name : string) (t : trace) :
  on_get_file bot t file_id = Ok f ->
  File.file_path f = Some (dir ++ "/" ++ name)%string ->
  has_char "/" name = false ->
  download_file bot file_id t
  = (t ++ [GetFile file_id; DownloadToDrive f ("/files/" ++ name)%string],
     on_download bot (t ++ [GetFile file_id]) f ("/files/" ++ name)%string).
Proof.
  intros Hf Hp Hname.
  destruct (download_file_cases file_id t)
    as [(e & _ & [He|(f' & Hf' & Hp' & _)])|(f' & path & name' & Hf' & Hp' & Hlast & Hrun)].
  - rewrite Hf in He. discriminate.
  - rewrite Hf in Hf'. injection Hf' as <-. rewrite Hp in Hp'. discriminate.
  - rewrite Hf in Hf'. injection Hf' as <-.
    rewrite Hp in Hp'. injection Hp' as <-.
    change (dir ++ "/" ++ name)%string with (dir ++ String "/" name)%string in Hlast.
    rewrite split_app_sep, (split_without_sep "/" name Hname), index_last_snoc in Hlast.
    injection Hlast as <-. exact Hrun.
Qed.

(** X16. A remote path without any slash is the local name as it is. *)
Theorem download_file_flat_path
        (file_id : string) (f : File.t) (path : string) (t : trace) :
  on_get_file bot t file_id = Ok f ->
  File.file_path f = Some path ->
  has_char "/" path = false ->
  download_file bot file_id t
  = (t ++ [GetFile file_id; DownloadToDrive f ("/files/" ++ path)%string],
     on_download bot (t ++ [GetFile file_id]) f ("/files/" ++ path)%string).
Proof.
  intros Hf Hp Hpath.
  destruct (download_file_cases file_id t)
    as [(e & _ & [He|(f' & Hf' & Hp' & _)])|(f' & path' & name' & Hf' & Hp' & Hlast & Hrun)].
  - rewrite Hf in He. discriminate.
  - rewrite Hf in Hf'. injection Hf' as <-. rewrite Hp in Hp'. discriminate.
  - rewrite Hf in Hf'. injection Hf' as <-.
    rewrite Hp in Hp'. injection Hp' as <-.
    rewrite (split_without_sep "/" path Hpath) in Hlast.
    change (index_last [path]) with (Ok path) in Hlast.
    injection Hlast as <-. exact Hrun.
Qed.

End Downloader.

(** ** The handlers on every platform *)

Section Handlers.

Local Open Scope list_scope.

Context {py : Python}.
Variable env : Config.
Variable bot : Platform.

(** The guard lets an update through only for a chat whose id the
    configuration spells. *)
Lemma check_user_passed (u : Update.t) (t t' : trace) :
  check_user env u t = (t', Ok tt) ->
  t' = t
  /\ exists chat, Update.effective_chat u = Some chat
                  /\ int (DEVELOPER_CHAT_ID env) = Ok (Chat.id chat).
Proof.
  unfold check_user. run.
  destruct (Update.effective_chat u) as [chat|]; [|discriminate].
  destruct (int (DEVELOPER_CHAT_ID env)) as [a|e]; [|discriminate].
  destruct (Z.eqb_spec (Chat.id chat) a) as [<-|Hne]; simpl; [|discriminate].
  intros [= <-]. split; [reflexivity|]. now exists chat.
Qed.

(** X2. An update that belongs to no chat is stopped by the guard with the
    failed attribute lookup, whatever the configuration, before the
    identity is converted and before anything is issued. *)
Theorem chatless_update_rejected (u : Update.t) (t : trace) :
  Update.effective_chat u = None ->
  check_user env u t = (t, Err (AttributeError "id"))
  /\ start env bot u t = (t, Err (AttributeError "id"))
  /\ image env bot u t = (t, Err (AttributeError "id"))
  /\ video env bot u t = (t, Err (AttributeError "id")).
Proof.
  intros Hc.
  assert (Hg : check_user env u t = (t, Err (AttributeError "id"))).
  { unfold check_user. run. now rewrite Hc. }
  repeat split; try exact Hg; apply guard_stops; exact Hg.
Qed.

(** X3. [start] asks for no file and sends at most one message: the usage
    text, as a reply, and only to a caller the guard has let through. *)
Theorem start_replies_once_to_authorized (u : Update.t) (t : trace) :
  requested (fst (start env bot u t)) = requested t
  /\ (fst (start env bot u t) = t
      \/ exists chat msg,
          Update.effective_chat u = Some chat
          /\ int (DEVELOPER_CHAT_ID env) = Ok (Chat.id chat)
          /\ Update.effective_message u = Some msg
          /\ fst (start env bot u t) = t ++ [ReplyHtml msg (usage_text (Chat.id chat))]).
Proof.
  unfold start.
  destruct (check_user_cases env u t) as [Hg|[e Hg]].
  - rewrite guard_passes by exact Hg.
    destruct (check_user_passed u t t Hg) as (_ & chat & Hc & Hi).
    unfold reply_html. run. rewrite Hc.
    destruct (Update.effective_message u) as [msg|]; simpl.
    + split; [rewrite requested_app; simpl; apply app_nil_r|].
      right. now exists chat, msg.
    + split; [reflexivity|now left].
  - rewrite guard_stops with (e := e) by exact Hg. simpl.
    split; [reflexivity|now left].
Qed.

(** X4. An authorized message without photo variants makes [image] fail on
    the empty sequence, before anything is issued. *)
Theorem image_without_variants
        (u : Update.t) (chat : Chat.t) (m : Message.t) (t : trace) :
  Update.effective_chat u = Some chat ->
  int (DEVELOPER_CHAT_ID env) = Ok (Chat.id chat) ->
  Update.message u = Some m ->
  Message.photo m = [] ->
  image env bot u t = (t, Err IndexError).
Proof.
  intros Hc Hi Hm Hp. unfold image.
  rewrite guard_passes by now apply check_user_authorized with chat.
  run. now rewrite Hm, Hp.
Qed.

(** X5. An authorized update whose [message] is unset (an edited message,
    a channel post) makes [image] and [video] fail on the missing
    attribute, before anything is issued. *)
Theorem media_handlers_need_message
        (u : Update.t) (chat : Chat.t) (t : trace) :
  Update.effective_chat u = Some chat ->
  int (DEVELOPER_CHAT_ID env) = Ok (Chat.id chat) ->
  Update.message u = None ->
  image env bot u t = (t, Err (AttributeError "photo"))
  /\ video env bot u t = (t, Err (AttributeError "video")).
Proof.
  intros Hc Hi Hm.
  pose proof (check_user_authorized env u chat t Hc Hi) as Hg.
  unfold image, video. rewrite !guard_passes by exact Hg.
  run. now rewrite Hm.
Qed.

(** X6. An authorized message without a video makes [video] fail on the
    missing payload, before anything is issued. *)
Theorem video_without_payload
        (u : Update.t) (chat : Chat.t) (m : Message.t) (t : trace) :
  Update.effective_chat u = Some chat ->
  int (DEVELOPER_CHAT_ID env) = Ok (Chat.id chat) ->
  Update.message u = Some m ->
  Message.video m = None ->
  video env bot u t = (t, Err (AttributeError "file_id")).
Proof.
  intros Hc Hi Hm Hv. unfold video.
  rewrite guard_passes by now apply check_user_authorized with chat.
  run. now rewrite Hm, Hv.
Qed.

End Handlers.

(** ** Confirmations *)

Section Confirmations.

Local Open Scope list_scope.

Context {py : Python}.
Variable env : Config.
Variable bot : Platform.

(** The rest of [image] once the variant is chosen. *)
Lemma image_chosen (u : Update.t) (m : Message.t) (size : PhotoSize.t) (t : trace) :
  check_user env u t = (t, Ok tt) ->
  Update.message u = Some m ->
  index_last (Message.photo m) = Ok size ->
  image env bot u t
  = bind (download_file bot (PhotoSize.file_id size))
         (fun _ => bind (lift (getattr (Update.effective_message u) "reply_html"))
                        (fun msg => reply_html bot msg "Downloaded image")) t.
Proof.
  intros Hg Hm Hs. unfold image. rewrite guard_passes by exact Hg.
  unfold bind at 1, lift at 1. rewrite Hm. simpl.
  unfold bind at 1, lift at 1. now rewrite Hs.
Qed.

(** The rest of [video] once the payload is found. *)
Lemma video_chosen (u : Update.t) (m : Message.t) (payload : Video.t) (t : trace) :
  check_user env u t = (t, Ok tt) ->
  Update.message u = Some m ->
  Message.video m = Some payload ->
  video env bot u t
  = bind (download_file bot (Video.file_id payload))
         (fun _ =>
            bind (lift (getattr (Update.effective_message u) "reply_html"))
                 (fun msg =>
                    bind (lift (getattr (Update.effective_chat u) "id"))
                         (fun chat =>
                            bind (reply_html bot msg (usage_text (Chat.id chat)))
                                 (fun _ =>
                                    bind (lift (getattr (Update.effective_message u)
                                                        "reply_html"))
                                         (fun msg => reply_html bot msg "Downloaded video"))))) t.
Proof.
  intros Hg Hm Hv. unfold video. rewrite guard_passes by exact Hg.
  unfold bind at 1, lift at 1. rewrite Hm. simpl.
  unfold bind at 1, lift at 1. now rewrite Hv.
Qed.

(** X7. [image] never confirms a download that did not happen: if it sends
    anything at all, then the platform resolved the chosen variant and
    accepted the write, and what [image] issued is the lookup, the
    write and the confirmation, in this order. *)
Theorem image_confirms_only_after_write (u : Update.t) (t : trace) :
  chat_messages (fst (image env bot u t)) <> chat_messages t ->
  exists m size f target msg,
    Update.message u = Some m
    /\ index_last (Message.photo m) = Ok size
    /\ on_get_file bot t (PhotoSize.file_id size) = Ok f
    /\ on_download bot (t ++ [GetFile (PhotoSize.file_id size)]) f target = Ok tt
    /\ Update.effective_message u = Some msg
    /\ fst (image env bot u t)
       = t ++ [GetFile (PhotoSize.file_id size);
               DownloadToDrive f target;
               ReplyHtml msg "Downloaded image"].
Proof.
  intros Hsent.
  destruct (check_user_cases env u t) as [Hg|[e Hg]].
  2:{ exfalso. apply Hsent. unfold image.
      now rewrite guard_stops with (e := e) by exact Hg. }
  destruct (Update.message u) as [m|] eqn:Hm.
  2:{ exfalso. apply Hsent. unfold image. rewrite guard_passes by exact Hg.
      run. now rewrite Hm. }
  destruct (index_last (Message.photo m)) as [size|e] eqn:Hs.
  2:{ exfalso. apply Hsent. unfold image. rewrite guard_passes by exact Hg.
      run. now rewrite Hm, Hs. }
  rewrite (image_chosen u m size t Hg Hm Hs) in *.
  unfold bind at 1 in Hsent. unfold bind at 1.
  destruct (download_file_cases bot (PhotoSize.file_id size) t)
    as [(e & Hrun & _)|(f & path & name & Hf & _ & _ & Hrun)];
    rewrite Hrun in *.
  { exfalso. apply Hsent. simpl. rewrite chat_messages_app. simpl. apply app_nil_r. }
  destruct (on_download bot (t ++ [GetFile (PhotoSize.file_id size)]) f
                        ("/files/" ++ name)%string) as [[]|e] eqn:Hd.
  2:{ exfalso. apply Hsent. simpl. rewrite chat_messages_app. simpl. apply app_nil_r. }
  destruct (Update.effective_message u) as [msg|] eqn:Hmsg.
  2:{ exfalso. apply Hsent. run. rewrite chat_messages_app. simpl. apply app_nil_r. }
  exists m, size, f, ("/files/" ++ name)%string, msg.
  repeat split; try assumption; try reflexivity.
  unfold reply_html. run. now rewrite <- app_assoc.
Qed.

(** X8. When the guard lets the photo through and the platform serves it,
    [image] issues the lookup of the last variant, the write under the
    final segment of the remote path and the confirmation; its
    outcome is the platform's answer to the confirmation. *)
Theorem image_served
        (u : Update.t) (chat : Chat.t) (m : Message.t)
        (earlier : list PhotoSize.t) (last : PhotoSize.t)
        (f : File.t) (path : string) (msg : Message.t) (t : trace) :
  Update.effective_chat u = Some chat ->
  int (DEVELOPER_CHAT_ID env) = Ok (Chat.id chat) ->
  Update.message u = Some m ->
  Message.photo m = earlier ++ [last] ->
  on_get_file bot t (PhotoSize.file_id last) = Ok f ->
  File.file_path f = Some path ->
  (forall target, on_download bot (t ++ [GetFile (PhotoSize.file_id last)]) f target = Ok tt) ->
  Update.effective_message u = Some msg ->
  exists name,
    index_last (Py.split "/" path) = Ok name
    /\ let written := t ++ [GetFile (PhotoSize.file_id last);
                            DownloadToDrive f ("/files/" ++ name)%string] in
       image env bot u t
       = (written ++ [ReplyHtml msg "Downloaded image"],
          on_reply bot written msg "Downloaded image").
Proof.
  intros Hc Hi Hm Hp Hf Hpath Hd Hmsg.
  pose proof (check_user_authorized env u chat t Hc Hi) as Hg.
  assert (Hs : index_last (Message.photo m) = Ok last)
    by (rewrite Hp; apply index_last_snoc).
  rewrite (image_chosen u m last t Hg Hm Hs). unfold bind at 1.
  destruct (download_file_cases bot (PhotoSize.file_id last) t)
    as [(e & _ & [He|(f' & Hf' & Hp' & _)])
       |(f' & path' & name & Hf' & Hp' & Hlast & Hrun)].
  - rewrite Hf in He. discriminate.
  - rewrite Hf in Hf'. injection Hf' as <-. rewrite Hpath in Hp'. discriminate.
  - rewrite Hf in Hf'. injection Hf' as <-.
    rewrite Hpath in Hp'. injection Hp' as <-.
    exists name. split; [exact Hlast|].
    rewrite Hrun, Hd. unfold reply_html. run. now rewrite Hmsg.
Qed.

(** X9. A failure of the platform on the way is the outcome of [image] as
    it is: after a refused lookup nothing is written, after a refused
    write nothing is confirmed, and in both cases no reply is sent. *)
Theorem image_passes_platform_failure_on
        (u : Update.t) (chat : Chat.t) (m : Message.t)
        (earlier : list PhotoSize.t) (last : PhotoSize.t) (t : trace) :
  Update.effective_chat u = Some chat ->
  int (DEVELOPER_CHAT_ID env) = Ok (Chat.id chat) ->
  Update.message u = Some m ->
  Message.photo m = earlier ++ [last] ->
  (forall e,
      on_get_file bot t (PhotoSize.file_id last) = Err e ->
      image env bot u t = (t ++ [GetFile (PhotoSize.file_id last)], Err e))
  /\ (forall f path e,
         on_get_file bot t (PhotoSize.file_id last) = Ok f ->
         File.file_path f = Some path ->
         (forall target,
             on_download bot (t ++ [GetFile (PhotoSize.file_id last)]) f target = Err e) ->
         exists target,
           image env bot u t
           = (t ++ [GetFile (PhotoSize.file_id last); DownloadToDrive f target], Err e)).
Proof.
  intros Hc Hi Hm Hp.
  pose proof (check_user_authorized env u chat t Hc Hi) as Hg.
  assert (Hs : index_last (Message.photo m) = Ok last)
    by (rewrite Hp; apply index_last_snoc).
  rewrite (image_chosen u m last t Hg Hm Hs). unfold bind at 1. split.
  - intros e He. now rewrite (download_file_lookup_failure bot _ e t He).
  - intros f path e Hf Hpath Hd.
    destruct (download_file_cases bot (PhotoSize.file_id last) t)
      as [(e' & _ & [He|(f' & Hf' & Hp' & _)])
         |(f' & path' & name & Hf' & _ & _ & Hrun)].
    + rewrite Hf in He. discriminate.
    + rewrite Hf in Hf'. injection Hf' as <-. rewrite Hpath in Hp'. discriminate.
    + rewrite Hf in Hf'. injection Hf' as <-.
      exists ("/files/" ++ name)%string. unfold bind at 1.
      now rewrite Hrun, Hd.
Qed.

(** X10. [video] asks the platform for the file of the message's video and
    for no other: for exactly that one when the guard lets the update
    through, and for none otherwise. *)
Theorem video_requests_payload
        (u : Update.t) (m : Message.t) (payload : Video.t) (t : trace) :
  Update.message u = Some m ->
  Message.video m = Some payload ->
  let t' := fst (video env bot u t) in
  (requested t' = requested t ++ [Video.file_id payload]
   \/ requested t' = requested t)
  /\ (forall chat,
         Update.effective_chat u = Some chat ->
         int (DEVELOPER_CHAT_ID env) = Ok (Chat.id chat) ->
         requested t' = requested t ++ [Video.file_id payload]).
Proof.
  intros Hm Hv t'. subst t'.
  assert (Hpass : check_user env u t = (t, Ok tt) ->
                  requested (fst (video env bot u t))
                  = requested t ++ [Video.file_id payload]).
  { intros Hg. rewrite (video_chosen u m payload t Hg Hm Hv).
    rewrite requested_after; [apply download_file_requests|].
    intros t1. unfold reply_html. run.
    destruct (Update.effective_message u) as [msg|]; simpl; [|reflexivity].
    destruct (Update.effective_chat u) as [chat|]; simpl; [|reflexivity].
    destruct (on_reply bot t1 msg (usage_text (Chat.id chat))); simpl;
      rewrite !requested_app; simpl; now rewrite !app_nil_r. }
  split.
  - destruct (check_user_cases env u t) as [Hg|[e Hg]].
    + left. now apply Hpass.
    + right. unfold video. now rewrite guard_stops with (e := e).
  - intros chat Hc Hi. apply Hpass. now apply check_user_authorized with chat.
Qed.

(** X11. When the guard lets the video through and the platform serves it,
    [video] issues the lookup, the write, the usage text with the
    caller's chat id, and then the confirmation; when the platform
    refuses the usage text, the confirmation is not sent and the
    refusal is the outcome. *)
Theorem video_served
        (u : Update.t) (chat : Chat.t) (m : Message.t) (payload : Video.t)
        (f : File.t) (path : string) (msg : Message.t) (t : trace) :
  Update.effective_chat u = Some chat ->
  int (DEVELOPER_CHAT_ID env) = Ok (Chat.id chat) ->
  Update.message u = Some m ->
  Message.video m = Some payload ->
  on_get_file bot t (Video.file_id payload) = Ok f ->
  File.file_path f = Some path ->
  (forall target, on_download bot (t ++ [GetFile (Video.file_id payload)]) f target = Ok tt) ->
  Update.effective_message u = Some msg ->
  exists name,
    index_last (Py.split "/" path) = Ok name
    /\ let written := t ++ [GetFile (Video.file_id payload);
                            DownloadToDrive f ("/files/" ++ name)%string] in
       let usage := ReplyHtml msg (usage_text (Chat.id chat)) in
       video env bot u t
       = match on_reply bot written msg (usage_text (Chat.id chat)) with
         | Ok _ => (written ++ [usage; ReplyHtml msg "Downloaded video"],
                    on_reply bot (written ++ [usage]) msg "Downloaded video")
         | Err e => (written ++ [usage], Err e)
         end.
Proof.
  intros Hc Hi Hm Hv Hf Hpath Hd Hmsg.
  pose proof (check_user_authorized env u chat t Hc Hi) as Hg.
  rewrite (video_chosen u m payload t Hg Hm Hv). unfold bind at 1.
  destruct (download_file_cases bot (Video.file_id payload) t)
    as [(e & _ & [He|(f' & Hf' & Hp' & _)])
       |(f' & path' & name & Hf' & Hp' & Hlast & Hrun)].
  - rewrite Hf in He. discriminate.
  - rewrite Hf in Hf'. injection Hf' as <-. rewrite Hpath in Hp'. discriminate.
  - rewrite Hf in Hf'. injection Hf' as <-.
    rewrite Hpath in Hp'. injection Hp' as <-.
    exists name. split; [exact Hlast|].
    rewrite Hrun, Hd. unfold reply_html. run. rewrite Hmsg, Hc. simpl.
    destruct (on_reply bot _ msg (usage_text (Chat.id chat))); simpl;
      [now rewrite <- app_assoc|reflexivity].
Qed.

(** X12. [video] sends nothing before the file is written: if it sends
    anything at all, then the platform resolved the video and accepted
    the write, and what was issued starts with the lookup, the write
    and the usage text, in this order. *)
Theorem video_replies_only_after_write (u : Update.t) (t : trace) :
  chat_messages (fst (video env bot u t)) <> chat_messages t ->
  exists m payload f target msg chat rest,
    Update.message u = Some m
    /\ Message.video m = Some payload
    /\ on_get_file bot t (Video.file_id payload) = Ok f
    /\ on_download bot (t ++ [GetFile (Video.file_id payload)]) f target = Ok tt
    /\ Update.effective_message u = Some msg
    /\ Update.effective_chat u = Some chat
    /\ fst (video env bot u t)
       = t ++ GetFile (Video.file_id payload)
              :: DownloadToDrive f target
              :: ReplyHtml msg (usage_text (Chat.id chat))
              :: rest
    /\ (rest = [] \/ rest = [ReplyHtml msg "Downloaded video"]).
Proof.
  intros Hsent.
  destruct (check_user_cases env u t) as [Hg|[e Hg]].
  2:{ exfalso. apply Hsent. unfold video.
      now rewrite guard_stops with (e := e) by exact Hg. }
  destruct (Update.message u) as [m|] eqn:Hm.
  2:{ exfalso. apply Hsent. unfold video. rewrite guard_passes by exact Hg.
      run. now rewrite Hm. }
  destruct (Message.video m) as [payload|] eqn:Hv.
  2:{ exfalso. apply Hsent. unfold video. rewrite guard_passes by exact Hg.
      run. now rewrite Hm, Hv. }
  rewrite (video_chosen u m payload t Hg Hm Hv) in *.
  unfold bind at 1 in Hsent. unfold bind at 1.
  destruct (download_file_cases bot (Video.file_id payload) t)
    as [(e & Hrun & _)|(f & path & name & Hf & _ & _ & Hrun)];
    rewrite Hrun in *.
  { exfalso. apply Hsent. simpl. rewrite chat_messages_app. simpl. apply app_nil_r. }
  destruct (on_download bot (t ++ [GetFile (Video.file_id payload)]) f
                        ("/files/" ++ name)%string) as [[]|e] eqn:Hd.
  2:{ exfalso. apply Hsent. simpl. rewrite chat_messages_app. simpl. apply app_nil_r. }
  destruct (Update.effective_message u) as [msg|] eqn:Hmsg.
  2:{ exfalso. apply Hsent. run. rewrite chat_messages_app. simpl. apply app_nil_r. }
  destruct (Update.effective_chat u) as [chat|] eqn:Hc.
  2:{ exfalso. apply Hsent. run. rewrite chat_messages_app. simpl. apply app_nil_r. }
  unfold reply_html. run.
  destruct (on_reply bot _ msg (usage_text (Chat.id chat))) as [[]|e]; simpl.
  - exists m, payload, f, ("/files/" ++ name)%string, msg, chat,
      [ReplyHtml msg "Downloaded video"].
    repeat split; try assumption; try reflexivity; [|now right].
    now rewrite <- !app_assoc.
  - exists m, payload, f, ("/files/" ++ name)%string, msg, chat, [].
    repeat split; try assumption; try reflexivity; [|now left].
    now rewrite <- !app_assoc.
Qed.

End Confirmations.

(** ** The shape of the report *)

Section ReportShape.

Local Open Scope string_scope.

Variable data : Type.
Variable rt : Runtime data.

Lemma count_char_app (c : ascii) (a b : string) :
  count_char c (a ++ b) = (count_char c a + count_char c b)%nat.
Proof.
  induction a as [|x a IH]; simpl; [reflexivity|].
  rewrite IH. apply Nat.add_assoc.
Qed.

Lemma count_char_absent (c : ascii) (s : string) :
  has_char c s = false -> count_char c s = O.
Proof.
  induction s as [|x s IH]; simpl; [reflexivity|].
  intros H. apply orb_false_elim in H as [Hx Hs].
  now rewrite Hx, (IH Hs).
Qed.

Lemma html_escape_no_dquote (s : string) :
  has_char Py.dquote (Py.html_escape s) = false.
Proof.
  unfold Py.html_escape.
  apply replace_removes; [reflexivity|right].
  apply replace_removes; [reflexivity|now left].
Qed.

Lemma html_escape_no_squote (s : string) :
  has_char Py.squote (Py.html_escape s) = false.
Proof.
  unfold Py.html_escape. apply replace_removes; [reflexivity|now left].
Qed.

(** X17. Whatever the components hold, the only angle brackets of the
    report are those of its four pairs of [pre] tags, and it holds no
    quote character at all. *)
Theorem report_markup_is_the_template (update : object) (context : Context data) :
  count_char "<" (report_text rt update context) = 8%nat
  /\ count_char ">" (report_text rt update context) = 8%nat
  /\ count_char Py.dquote (report_text rt update context) = O
  /\ count_char Py.squote (report_text rt update context) = O.
Proof.
  unfold report_text. rewrite !count_char_app.
  rewrite !(count_char_absent "<" (Py.html_escape _)) by apply html_escape_no_lt.
  rewrite !(count_char_absent ">" (Py.html_escape _)) by apply html_escape_no_gt.
  rewrite !(count_char_absent Py.dquote (Py.html_escape _))
    by apply html_escape_no_dquote.
  rewrite !(count_char_absent Py.squote (Py.html_escape _))
    by apply html_escape_no_squote.
  repeat split.
Qed.

Lemma length_append (a b : string) :
  String.length (a ++ b) = (String.length a + String.length b)%nat.
Proof.
  induction a as [|x a IH]; simpl; [reflexivity|]. now rewrite IH.
Qed.

Lemma replace_length (old : ascii) (new s : string) :
  (1 <= String.length new)%nat ->
  (String.length s <= String.length (Py.replace old new s))%nat.
Proof.
  intros Hnew. induction s as [|x s IH]; simpl; [lia|].
  destruct (Ascii.eqb x old); simpl; [rewrite length_append|]; lia.
Qed.

Lemma html_escape_length (s : string) :
  (String.length s <= String.length (Py.html_escape s))%nat.
Proof.
  unfold Py.html_escape.
  pose proof (replace_length "&" "&amp;" s) as H1.
  pose proof (replace_length "<" "&lt;" (Py.replace "&" "&amp;" s)) as H2.
  pose proof (replace_length ">" "&gt;"
                (Py.replace "<" "&lt;" (Py.replace "&" "&amp;" s))) as H3.
  pose proof (replace_length Py.dquote "&quot;"
                (Py.replace ">" "&gt;"
                   (Py.replace "<" "&lt;" (Py.replace "&" "&amp;" s)))) as H4.
  pose proof (replace_length Py.squote "&#x27;"
                (Py.replace Py.dquote "&quot;"
                   (Py.replace ">" "&gt;"
                      (Py.replace "<" "&lt;" (Py.replace "&" "&amp;" s))))) as H5.
  simpl in *. lia.
Qed.

(** X18. The report is never cut: it is at least as long as its 148
    characters of template and its four components together, however
    long those are. *)
Theorem report_is_never_truncated (update : object) (context : Context data) :
  (148 + list_sum (map String.length (components rt update context))
   <= String.length (report_text rt update context))%nat.
Proof.
  unfold report_text, components. rewrite !length_append.
  set (c1 := json_dumps rt _).
  set (c2 := str_data rt (chat_data context)).
  set (c3 := str_data rt (user_data context)).
  set (c4 := Py.join "" _).
  pose proof (html_escape_length c1). pose proof (html_escape_length c2).
  pose proof (html_escape_length c3). pose proof (html_escape_length c4).
  simpl. lia.
Qed.

Lemma replace_absent (old : ascii) (new s : string) :
  has_char old s = false -> Py.replace old new s = s.
Proof.
  induction s as [|x s IH]; simpl; [reflexivity|].
  intros H. apply orb_false_elim in H as [Hx Hs].
  now rewrite Hx, (IH Hs).
Qed.

Lemma html_escape_plain (s : string) : plain s = true -> Py.html_escape s = s.
Proof.
  unfold plain. intros H. apply negb_true_iff in H.
  repeat (apply orb_false_elim in H; destruct H as [H ?]).
  unfold Py.html_escape.
  rewrite (replace_absent "&" _ s) by assumption.
  rewrite (replace_absent "<" _ s) by assumption.
  rewrite (replace_absent ">" _ s) by assumption.
  rewrite (replace_absent Py.dquote _ s) by assumption.
  now rewrite (replace_absent Py.squote _ s) by assumption.
Qed.

(** X19. A component free of the five rewritten characters is found in the
    report as it is. *)
Theorem plain_component_verbatim
        (update : object) (context : Context data) (part : string) :
  In part (components rt update context) ->
  plain part = true ->
  contains part (report_text rt update context).
Proof.
  intros Hin Hplain. rewrite <- (html_escape_plain part Hplain) at 1.
  now apply report_text_embeds.
Qed.

End ReportShape.

(** ** Escaping keeps texts apart *)

Section EscapeFaithful.

Local Open Scope string_scope.

(** [html.escape] works character by character. *)
Lemma html_escape_cons (c : ascii) (r : string) :
  Py.html_escape (String c r) = escape_char c ++ Py.html_escape r.
Proof.
  change (String c r) with (String c "" ++ r).
  rewrite html_escape_app. f_equal.
  unfold Py.html_escape, escape_char. cbn [Py.replace].
  destruct (Ascii.eqb_spec c "&") as [->|H1]; [reflexivity|].
  cbn [Py.replace].
  destruct (Ascii.eqb_spec c "<") as [->|H2]; [reflexivity|].
  cbn [Py.replace].
  destruct (Ascii.eqb_spec c ">") as [->|H3]; [reflexivity|].
  cbn [Py.replace].
  destruct (Ascii.eqb_spec c Py.dquote) as [->|H4]; [reflexivity|].
  cbn [Py.replace].
  destruct (Ascii.eqb_spec c Py.squote) as [->|H5]; reflexivity.
Qed.

Lemma escape_char_first (c : ascii) :
  exists d rest, escape_char c = String d rest
                 /\ (d = "&"%char \/ (d = c /\ rest = "" /\ c <> "&"%char)).
Proof.
  unfold escape_char.
  destruct (Ascii.eqb_spec c "&"); [eexists _, _; split; [reflexivity|now left]|].
  destruct (Ascii.eqb c "<"); [eexists _, _; split; [reflexivity|now left]|].
  destruct (Ascii.eqb c ">"); [eexists _, _; split; [reflexivity|now left]|].
  destruct (Ascii.eqb c Py.dquote); [eexists _, _; split; [reflexivity|now left]|].
  destruct (Ascii.eqb c Py.squote); [eexists _, _; split; [reflexivity|now left]|].
  eexists _, _. split; [reflexivity|right; auto].
Qed.

(** The escaped forms of two characters, each followed by any text,
    agree only for equal characters and equal texts. *)
Lemma escape_char_apart (a b : ascii) (x y : string) :
  escape_char a ++ x = escape_char b ++ y -> a = b /\ x = y.
Proof.
  unfold escape_char.
  destruct (Ascii.eqb_spec a "&") as [->|A1];
    [|destruct (Ascii.eqb_spec a "<") as [->|A2];
      [|destruct (Ascii.eqb_spec a ">") as [->|A3];
        [|destruct (Ascii.eqb_spec a Py.dquote) as [->|A4];
          [|destruct (Ascii.eqb_spec a Py.squote) as [->|A5]]]]];
    (destruct (Ascii.eqb_spec b "&") as [->|B1];
     [|destruct (Ascii.eqb_spec b "<") as [->|B2];
       [|destruct (Ascii.eqb_spec b ">") as [->|B3];
         [|destruct (Ascii.eqb_spec b Py.dquote) as [->|B4];
           [|destruct (Ascii.eqb_spec b Py.squote) as [->|B5]]]]]);
    simpl; intros H; try discriminate H;
    try (injection H; intros; subst; split; congruence).
Qed.

(** Escaping loses nothing: texts with the same escaped form are the
    same text. *)
Lemma html_escape_injective (s1 s2 : string) :
  Py.html_escape s1 = Py.html_escape s2 -> s1 = s2.
Proof.
  revert s2. induction s1 as [|a s1 IH]; intros [|b s2] H.
  - reflexivity.
  - rewrite html_escape_cons in H.
    destruct (escape_char_first b) as (d & rest & Hd & _).
    rewrite Hd in H. discriminate H.
  - rewrite html_escape_cons in H.
    destruct (escape_char_first a) as (d & rest & Hd & _).
    rewrite Hd in H. discriminate H.
  - rewrite !html_escape_cons in H.
    apply escape_char_apart in H as [-> H]. f_equal. now apply IH.
Qed.

Lemma append_cancel_l (p x y : string) : p ++ x = p ++ y -> x = y.
Proof.
  induction p as [|c p IH]; simpl; [auto|].
  intros H. injection H as H. auto.
Qed.

(** Two texts free of [c], each followed by [c] and more, agree only
    when the texts agree and what follows agrees. *)
Lemma cut_at_first (c : ascii) (a a' x x' : string) :
  has_char c a = false ->
  has_char c a' = false ->
  a ++ String c x = a' ++ String c x' ->
  a = a' /\ x = x'.
Proof.
  revert a'. induction a as [|d a IH]; intros [|d' a'] Ha Ha' H; simpl in *.
  - injection H as H. auto.
  - injection H as Hd _. subst d'. now rewrite Ascii.eqb_refl in Ha'.
  - injection H as Hd _. subst d. now rewrite Ascii.eqb_refl in Ha.
  - injection H as Hd H. subst d'.
    apply orb_false_elim in Ha as [_ Ha]. apply orb_false_elim in Ha' as [_ Ha'].
    destruct (IH a' Ha Ha' H) as [-> ->]. auto.
Qed.

Variable data : Type.
Variable rt : Runtime data.

(** X20. The report can be read back: two reports with the same text were
    built from the same four components, whatever markup or template
    text the components hold themselves. *)
Theorem report_determines_components
        (update update' : object) (context context' : Context data) :
  report_text rt update context = report_text rt update' context' ->
  components rt update context = components rt update' context'.
Proof.
  unfold report_text, components. intros H.
  do 3 apply append_cancel_l in H.
  apply (cut_at_first "<") in H as [H1 H]; try apply html_escape_no_lt.
  apply html_escape_injective in H1. rewrite H1.
  apply (append_cancel_l "/pre>") in H.
  do 3 apply append_cancel_l in H.
  apply (cut_at_first "<") in H as [H2 H]; try apply html_escape_no_lt.
  apply html_escape_injective in H2. rewrite H2.
  apply (append_cancel_l "/pre>") in H.
  do 3 apply append_cancel_l in H.
  apply (cut_at_first "<") in H as [H3 H]; try apply html_escape_no_lt.
  apply html_escape_injective in H3. rewrite H3.
  apply (append_cancel_l "/pre>") in H.
  do 3 apply append_cancel_l in H.
  apply (cut_at_first "<") in H as [H4 _]; try apply html_escape_no_lt.
  apply html_escape_injective in H4. now rewrite H4.
Qed.

End EscapeFaithful.

(** ** Failures on their way to the developer *)

(** What each guarded handler, and [bad_command], does for a foreign
    chat. *)
Lemma unauthorized_performs_nothing_parts
      {py : Python} (env : Config) (bot : Platform)
      (u : Update.t) (chat : Chat.t) (a : Z) (t : trace) :
  Update.effective_chat u = Some chat ->
  int (DEVELOPER_CHAT_ID env) = Ok a ->
  Chat.id chat <> a ->
  start env bot u t = (t, Err (Forbidden "Unauthorized user"))
  /\ image env bot u t = (t, Err (Forbidden "Unauthorized user"))
  /\ video env bot u t = (t, Err (Forbidden "Unauthorized user"))
  /\ bad_command u t = (t, Err (AttributeError "wrong_method_name")).
Proof.
  intros Hc Hi Hne.
  pose proof (check_user_unauthorized env u chat a t Hc Hi Hne) as Hg.
  repeat split; try (apply guard_stops; exact Hg).
Qed.

Section Dispatch.

Local Open Scope list_scope.

Context {py : Python}.
Variable data : Type.
Variable rt : Runtime data.
Variable env : Config.
Variable bot : Platform.
Variable traceback : exn -> list string.

Lemma process_update_failure
      (callback : Update.t -> M unit) (u : Update.t) (e : exn)
      (chat_data user_data : data) (t t' : trace) :
  callback u t = (t', Err e) ->
  process_update (main_application rt env bot) traceback callback u
                 chat_data user_data t
  = (t' ++ report_actions env (failure_context traceback e chat_data user_data)
                          (report_text rt (an_Update u)
                             (failure_context traceback e chat_data user_data)),
     Ok tt).
Proof.
  intros H. unfold process_update. rewrite H.
  cbn [main_application error_handlers process_error].
  now rewrite error_handler_run.
Qed.

(** X21. Whichever registered callback an update from a foreign chat is
    routed to, all that is issued is the log entry and one report, sent
    to the developer's chat: the requester gets nothing and no file is
    asked for.  The failure reported is the guard's, except for
    [bad_command], which reports its own. *)
Theorem foreign_request_reported_to_developer
        (trig : trigger) (callback : Update.t -> M unit)
        (u : Update.t) (chat : Chat.t) (a : Z)
        (chat_data user_data : data) (t : trace) :
  In (trig, callback) (handlers (main_application rt env bot)) ->
  Update.effective_chat u = Some chat ->
  int (DEVELOPER_CHAT_ID env) = Ok a ->
  Chat.id chat <> a ->
  exists e,
    (e = Forbidden "Unauthorized user"
     \/ (trig = Command "bad_command" /\ e = AttributeError "wrong_method_name"))
    /\ let context := failure_context traceback e chat_data user_data in
       let text := report_text rt (an_Update u) context in
       let t' := fst (process_update (main_application rt env bot) traceback
                                     callback u chat_data user_data t) in
       t' = t ++ report_actions env context text
       /\ chat_messages t' = chat_messages t ++ [(inl (DEVELOPER_CHAT_ID env), text, HTML)]
       /\ requested t' = requested t.
Proof.
  intros Hin Hc Hi Hne.
  destruct (unauthorized_performs_nothing_parts env bot u chat a t Hc Hi Hne)
    as (Hs & Him & Hv & Hb).
  assert (Hall : exists e,
             (e = Forbidden "Unauthorized user"
              \/ (trig = Command "bad_command"
                  /\ e = AttributeError "wrong_method_name"))
             /\ callback u t = (t, Err e)).
  { simpl in Hin. destruct Hin as [H|[H|[H|[H|[]]]]]; injection H as <- <-.
    - eexists. split; [now left|exact Hs].
    - eexists. split; [right; split; reflexivity|exact Hb].
    - eexists. split; [now left|exact Him].
    - eexists. split; [now left|exact Hv]. }
  destruct Hall as (e & He & Hrun). exists e. split; [exact He|].
  cbv zeta. rewrite (process_update_failure callback u e _ _ t t Hrun). simpl.
  repeat split.
  - rewrite chat_messages_app. reflexivity.
  - rewrite requested_app. simpl. apply app_nil_r.
Qed.

(** X22. [bad_command] does what it is there for: routed to it, any update,
    from any chat and under any configuration, ends in exactly the log
    entry and one report of the failed method lookup. *)
Theorem bad_command_always_reported
        (u : Update.t) (chat_data user_data : data) (t : trace) :
  In (Command "bad_command", bad_command) (handlers (main_application rt env bot))
  /\ let context := failure_context traceback (AttributeError "wrong_method_name")
                                    chat_data user_data in
     process_update (main_application rt env bot) traceback bad_command u
                    chat_data user_data t
     = (t ++ report_actions env context (report_text rt (an_Update u) context), Ok tt).
Proof.
  split; [simpl; auto|].
  cbv zeta. apply process_update_failure. reflexivity.
Qed.

(** X23. With the identity unset, every request ends in a failure, and the
    report about it is sent without a recipient: nobody is notified. *)
Theorem unset_identity_report_unaddressed
        (trig : trigger) (callback : Update.t -> M unit)
        (u : Update.t) (chat : Chat.t)
        (chat_data user_data : data) (t : trace) :
  DEVELOPER_CHAT_ID env = None ->
  In (trig, callback) (handlers (main_application rt env bot)) ->
  Update.effective_chat u = Some chat ->
  exists e,
    (e = TypeError
     \/ (trig = Command "bad_command" /\ e = AttributeError "wrong_method_name"))
    /\ callback u t = (t, Err e)
    /\ chat_messages
         (fst (process_update (main_application rt env bot) traceback
                              callback u chat_data user_data t))
       = chat_messages t
         ++ [(inl None,
              report_text rt (an_Update u)
                          (failure_context traceback e chat_data user_data),
              HTML)].
Proof.
  intros Hcfg Hin Hc.
  assert (Hi : int (DEVELOPER_CHAT_ID env) = Err TypeError) by now rewrite Hcfg.
  pose proof (check_user_misconfigured env u chat TypeError t Hc Hi) as Hg.
  assert (Hall : exists e,
             (e = TypeError
              \/ (trig = Command "bad_command"
                  /\ e = AttributeError "wrong_method_name"))
             /\ callback u t = (t, Err e)).
  { simpl in Hin. destruct Hin as [H|[H|[H|[H|[]]]]]; injection H as <- <-.
    - eexists. split; [now left|now apply guard_stops].
    - eexists. split; [right; split; reflexivity|reflexivity].
    - eexists. split; [now left|now apply guard_stops].
    - eexists. split; [now left|now apply guard_stops]. }
  destruct Hall as (e & He & Hrun).
  exists e. split; [exact He|]. split; [exact Hrun|].
  rewrite (process_update_failure callback u e _ _ t t Hrun).
  unfold report_actions. simpl.
  rewrite chat_messages_app, Hcfg. reflexivity.
Qed.

End Dispatch.

(** ** The further properties on sample inputs *)

Section MoreSamples.

Local Open Scope list_scope.

Import Fixture Scenario.

#[local] Existing Instance ascii_python.

(** The developer writes 42 in decimal: chat 42 passes. *)
Lemma check_user_configured_witness :
  check_user env (from 42) [] = ([], Ok tt) <-> Chat.id {| Chat.id := 42 |} = 42.
Proof.
  apply (check_user_configured env (from 42) {| Chat.id := 42 |} 42 []);
    reflexivity.
Defined.

Lemma chatless_update_rejected_witness :
  check_user unset chatless [] = ([], Err (AttributeError "id"))
  /\ start unset quiet chatless [] = ([], Err (AttributeError "id"))
  /\ image unset quiet chatless [] = ([], Err (AttributeError "id"))
  /\ video unset quiet chatless [] = ([], Err (AttributeError "id")).
Proof.
  apply (chatless_update_rejected unset quiet chatless []). reflexivity.
Defined.

Lemma image_without_variants_witness :
  image env quiet (text_from 42) [] = ([], Err IndexError).
Proof.
  apply (image_without_variants env quiet (text_from 42) {| Chat.id := 42 |} note []);
    reflexivity.
Defined.

Lemma media_handlers_need_message_witness :
  image env quiet (edited_from 42) [] = ([], Err (AttributeError "photo"))
  /\ video env quiet (edited_from 42) [] = ([], Err (AttributeError "video")).
Proof.
  apply (media_handlers_need_message env quiet (edited_from 42)
           {| Chat.id := 42 |} []); reflexivity.
Defined.

Lemma video_without_payload_witness :
  video env quiet (text_from 42) [] = ([], Err (AttributeError "file_id")).
Proof.
  apply (video_without_payload env quiet (text_from 42) {| Chat.id := 42 |} note []);
    reflexivity.
Defined.

Lemma image_confirms_only_after_write_witness :
  exists m size f target msg,
    Update.message (from 42) = Some m
    /\ index_last (Message.photo m) = Ok size
    /\ on_get_file quiet [] (PhotoSize.file_id size) = Ok f
    /\ on_download quiet ([] ++ [GetFile (PhotoSize.file_id size)]) f target = Ok tt
    /\ Update.effective_message (from 42) = Some msg
    /\ fst (image env quiet (from 42) [])
       = [] ++ [GetFile (PhotoSize.file_id size);
                DownloadToDrive f target;
                ReplyHtml msg "Downloaded image"].
Proof.
  apply (image_confirms_only_after_write env quiet (from 42) []).
  discriminate.
Defined.

Lemma image_served_witness :
  exists name,
    index_last (Py.split "/" "abc/def/image123.jpg") = Ok name
    /\ let written := [] ++ [GetFile "large";
                             DownloadToDrive (remote "large") ("/files/" ++ name)%string] in
       image env quiet (from 42) []
       = (written ++ [ReplyHtml picture "Downloaded image"],
          on_reply quiet written picture "Downloaded image").
Proof.
  apply (image_served env quiet (from 42) {| Chat.id := 42 |} picture
           [v1; v2] v3 (remote "large") "abc/def/image123.jpg" picture []);
    reflexivity.
Defined.

Lemma image_passes_platform_failure_on_witness :
  image env offline (from 42) []
  = ([] ++ [GetFile "large"], Err (TelegramError "Bad Gateway"))
  /\ exists target,
      image env readonly (from 42) []
      = ([] ++ [GetFile "large"; DownloadToDrive (remote "large") target],
         Err (TelegramError "Read-only file system")).
Proof.
  split.
  - apply (proj1 (image_passes_platform_failure_on (py := ascii_python) env offline (from 42)
                    {| Chat.id := 42 |} picture [v1; v2] v3 []
                    eq_refl eq_refl eq_refl eq_refl)).
    reflexivity.
  - apply (proj2 (image_passes_platform_failure_on (py := ascii_python) env readonly (from 42)
                    {| Chat.id := 42 |} picture [v1; v2] v3 []
                    eq_refl eq_refl eq_refl eq_refl)
                 (remote "large") "abc/def/image123.jpg");
      reflexivity.
Defined.

Lemma video_requests_payload_witness :
  requested (fst (video env quiet (video_from 42) [])) = ["clip-7"%string].
Proof.
  apply (proj2 (video_requests_payload env quiet (video_from 42) film clip []
                  eq_refl eq_refl) {| Chat.id := 42 |}); reflexivity.
Defined.

Lemma video_served_witness :
  exists name,
    index_last (Py.split "/" "abc/def/image123.jpg") = Ok name
    /\ let written := [] ++ [GetFile "clip-7";
                             DownloadToDrive (remote "clip-7") ("/files/" ++ name)%string] in
       let usage := ReplyHtml film (usage_text 42) in
       video env mute (video_from 42) []
       = match on_reply mute written film (usage_text 42) with
         | Ok _ => (written ++ [usage; ReplyHtml film "Downloaded video"],
                    on_reply mute (written ++ [usage]) film "Downloaded video")
         | Err e => (written ++ [usage], Err e)
         end.
Proof.
  apply (video_served env mute (video_from 42) {| Chat.id := 42 |} film clip
           (remote "clip-7") "abc/def/image123.jpg" film []);
    reflexivity.
Defined.

Lemma video_replies_only_after_write_witness :
  exists m payload f target msg chat rest,
    Update.message (video_from 42) = Some m
    /\ Message.video m = Some payload
    /\ on_get_file quiet [] (Video.file_id payload) = Ok f
    /\ on_download quiet ([] ++ [GetFile (Video.file_id payload)]) f target = Ok tt
    /\ Update.effective_message (video_from 42) = Some msg
    /\ Update.effective_chat (video_from 42) = Some chat
    /\ fst (video env quiet (video_from 42) [])
       = [] ++ GetFile (Video.file_id payload)
               :: DownloadToDrive f target
               :: ReplyHtml msg (usage_text (Chat.id chat))
               :: rest
    /\ (rest = [] \/ rest = [ReplyHtml msg "Downloaded video"]).
Proof.
  apply (video_replies_only_after_write env quiet (video_from 42) []).
  discriminate.
Defined.

Lemma download_file_without_path_witness :
  download_file pathless "large" []
  = ([] ++ [GetFile "large"], Err (AttributeError "split")).
Proof.
  apply (download_file_without_path pathless "large"
           {| File.file_id := "large"; File.file_path := None |} []);
    reflexivity.
Defined.

(** Two remote files called alike end up in the same local file. *)
Lemma download_file_same_name_same_target_witness :
  download_file (serving "2024/05/cat.jpg") "a" []
  = ([] ++ [GetFile "a";
            DownloadToDrive {| File.file_id := "a";
                               File.file_path := Some "2024/05/cat.jpg" |}
                            "/files/cat.jpg"],
     Ok tt)
  /\ download_file (serving "trash/cat.jpg") "b" []
     = ([] ++ [GetFile "b";
               DownloadToDrive {| File.file_id := "b";
                                  File.file_path := Some "trash/cat.jpg" |}
                               "/files/cat.jpg"],
        Ok tt).
Proof.
  split.
  - apply (download_file_same_name_same_target (serving "2024/05/cat.jpg") "a"
             {| File.file_id := "a"; File.file_path := Some "2024/05/cat.jpg" |}
             "2024/05" "cat.jpg" []); reflexivity.
  - apply (download_file_same_name_same_target (serving "trash/cat.jpg") "b"
             {| File.file_id := "b"; File.file_path := Some "trash/cat.jpg" |}
             "trash" "cat.jpg" []); reflexivity.
Defined.

Lemma download_file_flat_path_witness :
  download_file (serving "cat.jpg") "a" []
  = ([] ++ [GetFile "a";
            DownloadToDrive {| File.file_id := "a"; File.file_path := Some "cat.jpg" |}
                            "/files/cat.jpg"],
     Ok tt).
Proof.
  apply (download_file_flat_path (serving "cat.jpg") "a"
           {| File.file_id := "a"; File.file_path := Some "cat.jpg" |}
           "cat.jpg" []); reflexivity.
Defined.

Lemma plain_component_verbatim_witness :
  contains "{}" (report_text rt (an_Update (from 7)) context).
Proof.
  apply (plain_component_verbatim string rt (an_Update (from 7)) context "{}").
  - right. left. reflexivity.
  - reflexivity.
Defined.

(** The sample runtime prints every update alike, so the reports of
    the same failure for two updates agree, and so do the components. *)
Lemma report_determines_components_witness :
  components rt (an_Update (from 7)) context
  = components rt (an_Update (from 42)) context.
Proof.
  apply (report_determines_components string rt
           (an_Update (from 7)) (an_Update (from 42)) context context).
  reflexivity.
Defined.

Lemma foreign_request_reported_to_developer_witness :
  exists e,
    (e = Forbidden "Unauthorized user"
     \/ (PHOTO = Command "bad_command" /\ e = AttributeError "wrong_method_name"))
    /\ let context := failure_context traceback e "{}"%string "{}"%string in
       let text := report_text rt (an_Update (from 7)) context in
       let t' := fst (process_update (main_application rt env quiet) traceback
                                     (image env quiet) (from 7)
                                     "{}"%string "{}"%string []) in
       t' = [] ++ report_actions env context text
       /\ chat_messages t'
          = chat_messages [] ++ [(inl (DEVELOPER_CHAT_ID env), text, HTML)]
       /\ requested t' = requested [].
Proof.
  apply (foreign_request_reported_to_developer string rt env quiet traceback
           PHOTO (image env quiet) (from 7) {| Chat.id := 7 |} 42
           "{}"%string "{}"%string []).
  - simpl. right. right. left. reflexivity.
  - reflexivity.
  - reflexivity.
  - simpl. discriminate.
Defined.

Lemma unset_identity_report_unaddressed_witness :
  exists e,
    (e = TypeError
     \/ (Command "start" = Command "bad_command"
         /\ e = AttributeError "wrong_method_name"))
    /\ start unset quiet (from 42) [] = ([], Err e)
    /\ chat_messages
         (fst (process_update (main_application rt unset quiet) traceback
                              (start unset quiet) (from 42)
                              "{}"%string "{}"%string []))
       = chat_messages []
         ++ [(inl None,
              report_text rt (an_Update (from 42))
                          (failure_context traceback e "{}"%string "{}"%string),
              HTML)].
Proof.
  apply (unset_identity_report_unaddressed string rt unset quiet traceback
           (Command "start") (start unset quiet) (from 42) {| Chat.id := 42 |}
           "{}"%string "{}"%string []).
  - reflexivity.
  - simpl. left. reflexivity.
  - reflexivity.
Defined.

End MoreSamples.
